(** * hackrf-antenna-swr-utility: the scan loops and the SWR deriver

    A shallow embedding of [hackrf_antenna_swr_utility/main.py]
    ([get_antenna_statistics_osmocom], [get_antenna_statistics_rtl_power],
    [get_frequency_swr_pairs], [read_data_pairs_from_file]) and the
    properties its specification states about them.

    Modelling conventions.
    - The program is Python 2 ([unicode], [print_function]): the lines read
      from the child process are byte strings, modelled as [string].  What
      [io.open] reads is text, a list of code points, and the keys of the
      baseline that [json.loads] returns are text too.
    - A Python [float] is idealised as a real number: rounding, overflow,
      infinities and NaN are outside the model, and [10 ** x] is
      [Rpower 10 x].  Nothing is stated here that depends on how a double
      rounds, and [float(s)] is modelled on decimal numerals only: the
      words [inf], [nan] and [infinity], which Python accepts, are refused.
    - A [dict] keyed by floats is an association list with distinct keys; the
      only dict operations of the source are [setdefault(k, []).append(v)],
      [d[k]] and [sorted(d.keys())].  The deriver is modelled twice: on a
      baseline keyed by floats, and on a baseline keyed by text, which is
      what [analyze] passes.
    - The child process is its standard output: a list of events, a line
      printed or a [KeyboardInterrupt] delivered while the parent is blocked
      in [readline].  After the last event [readline] returns the empty
      string for ever, as it does on a closed pipe.  For the rtl_power scan
      a second model lets the interrupt arrive between [setdefault] and
      [append].
    - An exception is a value: every function that can raise returns a
      [result]. *)

From Stdlib Require Import Reals Lra Lia List String Ascii ZArith QArith Qreals.
From Stdlib Require Import Permutation Sorted Bool.
Import ListNotations.

Set Implicit Arguments.

(* ------------------------------------------------------------------ *)
(** ** The Python built-ins the source calls *)

Module Py.

Local Open Scope string_scope.

(** The characters [str.strip()] removes: tab, newline, vertical tab, form
    feed, carriage return and space. *)
Definition is_space (c : ascii) : bool :=
  let n := N_of_ascii c in
  (N.leb 9 n && N.leb n 13) || N.eqb n 32.

Fixpoint lstrip (s : string) : string :=
  match s with
  | String c s' => if is_space c then lstrip s' else s
  | EmptyString => EmptyString
  end.

Fixpoint rstrip (s : string) : string :=
  match s with
  | String c s' =>
      match rstrip s' with
      | EmptyString => if is_space c then EmptyString else String c EmptyString
      | t => String c t
      end
  | EmptyString => EmptyString
  end.

(** [s.strip()] *)
Definition strip (s : string) : string := lstrip (rstrip s).

(** [s.split(sep)] for a one-character separator: every occurrence of the
    separator ends a field, so the result is never empty and consecutive
    separators give empty fields. *)
Fixpoint split (sep : ascii) (s : string) : list string :=
  match s with
  | String c s' =>
      if Ascii.eqb c sep then EmptyString :: split sep s'
      else match split sep s' with
           | w :: ws => String c w :: ws
           | [] => [String c EmptyString]
           end
  | EmptyString => [EmptyString]
  end.

(** *** [float(s)] on a string

    Optional surrounding white space, an optional sign, decimal digits with
    an optional point, an optional exponent.  The value is computed exactly,
    as a rational; [None] stands for [ValueError].  The words [inf], [nan]
    and [infinity], which Python reads as floats that are not numbers of the
    model, give [None] as well. *)

Definition digit_of (c : ascii) : option Z :=
  let n := N_of_ascii c in
  if (N.leb 48 n && N.leb n 57)%bool then Some (Z.of_N (n - 48)) else None.

(** Reads the longest run of digits: the number read so far, how many
    digits were read, and the rest of the string. *)
Fixpoint read_digits (s : string) (acc : Z) (count : nat) : Z * nat * string :=
  match s with
  | String c s' =>
      match digit_of c with
      | Some d => read_digits s' (10 * acc + d)%Z (S count)
      | None => (acc, count, s)
      end
  | EmptyString => (acc, count, s)
  end.

Definition read_sign (s : string) : bool * string :=
  match s with
  | String "-" t => (true, t)
  | String "+" t => (false, t)
  | _ => (false, s)
  end.

(** The exponent part, which must reach the end of the string. *)
Definition read_exponent (s : string) : option Z :=
  match s with
  | EmptyString => Some 0%Z
  | String c t =>
      if (Ascii.eqb c "e" || Ascii.eqb c "E")%bool then
        let '(neg, t) := read_sign t in
        match read_digits t 0%Z 0 with
        | (_, O, _) => None
        | (e, S _, EmptyString) => Some (if neg then (- e)%Z else e)
        | (_, S _, String _ _) => None
        end
      else None
  end.

Definition scale (m e : Z) : Q :=
  if (0 <=? e)%Z then Qmake (m * 10 ^ e)%Z 1
  else Qmake m (Z.to_pos (10 ^ (- e))).

Definition parse_float (s : string) : option Q :=
  let '(neg, s1) := read_sign (strip s) in
  let '(ip, ni, s2) := read_digits s1 0%Z 0 in
  let '(m, nf, s3) :=
    match s2 with
    | String "." t => read_digits t ip 0
    | _ => (ip, O, s2)
    end in
  if Nat.eqb (ni + nf) 0 then None
  else match read_exponent s3 with
       | Some e => Some (scale (if neg then (- m)%Z else m) (e - Z.of_nat nf))
       | None => None
       end.

(** [float(s)]: [None] is [ValueError]. *)
Definition float (s : string) : option R := option_map Q2R (parse_float s).

End Py.

Local Open Scope R_scope.

(* ------------------------------------------------------------------ *)
(** ** Exceptions as values *)

Inductive exn : Type :=
| KeyboardInterrupt
| ValueError
| KeyError (key : R)
| ZeroDivisionError
| KeyErrorText (key : string).

Inductive result (A : Type) : Type :=
| Return (a : A)
| Raise (e : exn).

Arguments Raise {A} e.

Definition bind {A B : Type} (r : result A) (k : A -> result B) : result B :=
  match r with
  | Return a => k a
  | Raise e => Raise e
  end.

Notation "x <- r ;; k" := (bind r (fun x => k))
  (at level 61, r at next level, right associativity).

(* ------------------------------------------------------------------ *)
(** ** FrequencyPowerMap: the dict [frequencies] *)

Definition FrequencyPowerMap : Type := list (R * list R).

Definition keys (d : FrequencyPowerMap) : list R := map fst d.

(** [d[k]]; [None] is [KeyError]. *)
Fixpoint dict_get (k : R) (d : FrequencyPowerMap) : option (list R) :=
  match d with
  | [] => None
  | (k', readings) :: d' =>
      if Req_dec_T k' k then Some readings else dict_get k d'
  end.

(** [d.setdefault(k, []).append(v)]: the list under [k] is created when the
    key is new, and [v] goes at its end. *)
Fixpoint setdefault_append (k v : R) (d : FrequencyPowerMap) : FrequencyPowerMap :=
  match d with
  | [] => [(k, [v])]
  | (k', readings) :: d' =>
      if Req_dec_T k' k then (k', readings ++ [v]) :: d'
      else (k', readings) :: setdefault_append k v d'
  end.

(** What a Python dict guarantees by construction: no key twice. *)
Definition dict_wf (d : FrequencyPowerMap) : Prop := NoDup (keys d).

(** The data model's invariant: every key was observed at least once. *)
Definition observed (d : FrequencyPowerMap) : Prop :=
  forall k readings, In (k, readings) d -> readings <> [].

(* ------------------------------------------------------------------ *)
(** ** The child process and the scan state *)

Inductive event : Type :=
| Stdout (line : string)
| Interrupt.

Definition process : Type := list event.

Inductive read : Type :=
| Line (line : string) (rest : process)
| Interrupted.

(** [proc.stdout.readline()] *)
Definition readline (proc : process) : read :=
  match proc with
  | [] => Line EmptyString []
  | Stdout line :: rest => Line line rest
  | Interrupt :: _ => Interrupted
  end.

(** The three locals of both scan functions. *)
Record scan_state : Type := mk_state {
  frequencies : FrequencyPowerMap;
  loop_cursor : Z;
  max_encountered_frequency : R
}.

Definition initial_state : scan_state := mk_state [] 0 0.

(** What a call did: how it ended, and how many times it called
    [proc.send_signal(signal.SIGINT)]. *)
Record run : Type := mk_run {
  outcome : result FrequencyPowerMap;
  sigints : nat
}.

(** main.py 86-89 and 156-159:
    [if freq <= max_encountered_frequency: loop_cursor += 1
     else: max_encountered_frequency = freq] *)
Definition detect (freq : R) (st : scan_state) : scan_state :=
  if Rle_dec freq (max_encountered_frequency st)
  then mk_state (frequencies st) (loop_cursor st + 1) (max_encountered_frequency st)
  else mk_state (frequencies st) (loop_cursor st) freq.

(** main.py 98-99 and 168-169, once both floats are known. *)
Definition record (key power : R) (st : scan_state) : scan_state :=
  mk_state (setdefault_append key power (frequencies st))
           (loop_cursor st) (max_encountered_frequency st).

(* ------------------------------------------------------------------ *)
(** ** get_antenna_statistics_osmocom (main.py 41-104) *)

(** main.py 75-81: the ten-name tuple assignment; [None] is the exception
    the bare [except] turns into [continue]. *)
Definition unpack_osmocom (fields : list string) : option (string * string * string) :=
  match fields with
  | [_date; _time; _; center_freq; _; freq; _; power_db; _; _noise_floor_db] =>
      Some (center_freq, freq, power_db)
  | _ => None
  end.

(** The [while True] loop.  It has no exit at end of file, so the model takes
    fuel: [None] says the loop was still running when the fuel ran out. *)
Fixpoint osmocom_loop (fuel : nat) (loops : Z) (st : scan_state) (proc : process)
  : option run :=
  match fuel with
  | O => None
  | S fuel' =>
      match readline proc with
      | Interrupted => Some (mk_run (Raise KeyboardInterrupt) 1)
      | Line line rest =>
          match unpack_osmocom (Py.split " " (Py.strip line)) with
          | None => osmocom_loop fuel' loops st rest
          | Some (center_freq, freq, power_db) =>
              match Py.float freq with
              | None => Some (mk_run (Raise ValueError) 0)
              | Some f =>
                  let st1 := detect f st in
                  if (loop_cursor st1 >=? loops)%Z
                  then Some (mk_run (Return (frequencies st1)) 1)
                  else
                    match Py.float center_freq with
                    | None => Some (mk_run (Raise ValueError) 0)
                    | Some c =>
                        match Py.float power_db with
                        | None => Some (mk_run (Raise ValueError) 0)
                        | Some p => osmocom_loop fuel' loops (record c p st1) rest
                        end
                    end
              end
          end
      end
  end.

Definition get_antenna_statistics_osmocom
  (fuel : nat) (proc : process) (loops : Z) : option run :=
  osmocom_loop fuel loops initial_state proc.

(** The default of the keyword argument [loops]. *)
Definition osmocom_loops : Z := 5.

(* ------------------------------------------------------------------ *)
(** ** get_antenna_statistics_rtl_power (main.py 107-173) *)

(** main.py 142-146; [None] is the [IndexError] or [ValueError] that the
    bare [except] logs and turns into [continue]. *)
Definition parse_rtl_power (line : string) : option (R * R * list string) :=
  let parts := Py.split "," line in
  match nth_error parts 2 with
  | None => None
  | Some field2 =>
      match Py.float field2 with
      | None => None
      | Some base_freq =>
          match nth_error parts 4 with
          | None => None
          | Some field4 =>
              match Py.float field4 with
              | None => None
              | Some interval => Some (base_freq, interval, skipn 6 parts)
              end
          end
      end
  end.

(** main.py 154-169: the [for idx, power in enumerate(measurements)] loop.
    It ends at the last reading or at the [break], and then hands the locals
    and the count of signals back to the [while] loop; a reading that is not
    a number raises out of the function. *)
Fixpoint rtl_power_bins (loops : Z) (base_freq interval : R) (idx : nat)
  (measurements : list string) (st : scan_state) (sent : nat)
  : result (scan_state * nat) :=
  match measurements with
  | [] => Return (st, sent)
  | power :: later =>
      let freq := base_freq + INR idx * interval in
      let st1 := detect freq st in
      if (loop_cursor st1 >=? loops)%Z then Return (st1, S sent)
      else
        match Py.float power with
        | None => Raise ValueError
        | Some p =>
            rtl_power_bins loops base_freq interval (S idx) later
              (record freq p st1) sent
        end
  end.

(** The [while True] loop, with the handler of [KeyboardInterrupt] at its
    [Interrupt] case.  The empty process is the closed pipe: [readline] gives
    the empty string and the loop breaks.  The recursion is on the events, so
    the function is total. *)
Fixpoint rtl_power_loop (loops : Z) (st : scan_state) (sent : nat) (proc : process)
  : run :=
  match proc with
  | [] => mk_run (Return (frequencies st)) sent
  | Interrupt :: _ => mk_run (Return (frequencies st)) (S sent)
  | Stdout line :: rest =>
      match Py.strip line with
      | EmptyString => mk_run (Return (frequencies st)) sent
      | stripped =>
          match parse_rtl_power stripped with
          | None => rtl_power_loop loops st sent rest
          | Some (base_freq, interval, measurements) =>
              match rtl_power_bins loops base_freq interval 0 measurements st sent with
              | Raise e => mk_run (Raise e) sent
              | Return (st1, sent1) => rtl_power_loop loops st1 sent1 rest
              end
          end
      end
  end.

Definition get_antenna_statistics_rtl_power (proc : process) (loops : Z) : run :=
  rtl_power_loop loops initial_state 0 proc.

(** The default of the keyword argument [loops]. *)
Definition rtl_power_loops : Z := 1.

(* ------------------------------------------------------------------ *)
(** ** The rtl_power scan, cancelled while it records (main.py 168-171)

    [frequencies.setdefault(float(freq), []).append(float(power))] is two
    calls.  A [KeyboardInterrupt] is raised between two instructions of the
    interpreter, so it can arrive when [setdefault] has put the key in and
    [append] has not run yet.  The whole loop is inside the [try], and the
    handler at 170-171 signals the child and lets the function return the
    map as the interrupt left it. *)

(** [d.setdefault(k, [])] for its effect on the dict. *)
Fixpoint setdefault_empty (k : R) (d : FrequencyPowerMap) : FrequencyPowerMap :=
  match d with
  | [] => [(k, [])]
  | (k', readings) :: d' =>
      if Req_dec_T k' k then d else (k', readings) :: setdefault_empty k d'
  end.

(** [.append(v)] on the list under [k], which [setdefault] has returned. *)
Fixpoint append_reading (k v : R) (d : FrequencyPowerMap) : FrequencyPowerMap :=
  match d with
  | [] => []
  | (k', readings) :: d' =>
      if Req_dec_T k' k then (k', readings ++ [v]) :: d'
      else (k', readings) :: append_reading k v d'
  end.

(** How the [for] loop over the readings of one record ends. *)
Inductive bins_end : Type :=
| Finished (st : scan_state) (sent : nat) (cancel : option nat)
| Failed (e : exn)
| Cancelled (st : scan_state).

(** The [for] loop of main.py 154-169 with the two calls apart.  [cancel]
    says where the interrupt arrives: [Some n] is after the [setdefault] of
    the reading that follows [n] recorded ones, [None] is never. *)
Fixpoint rtl_power_bins_cancel (loops : Z) (base_freq interval : R) (idx : nat)
  (measurements : list string) (st : scan_state) (sent : nat) (cancel : option nat)
  : bins_end :=
  match measurements with
  | [] => Finished st sent cancel
  | power :: later =>
      let freq := base_freq + INR idx * interval in
      let st1 := detect freq st in
      if (loop_cursor st1 >=? loops)%Z then Finished st1 (S sent) cancel
      else
        let created :=
          mk_state (setdefault_empty freq (frequencies st1))
                   (loop_cursor st1) (max_encountered_frequency st1) in
        match cancel with
        | Some O => Cancelled created
        | _ =>
            match Py.float power with
            | None => Failed ValueError
            | Some p =>
                rtl_power_bins_cancel loops base_freq interval (S idx) later
                  (mk_state (append_reading freq p (frequencies created))
                            (loop_cursor st1) (max_encountered_frequency st1))
                  sent (option_map pred cancel)
            end
        end
  end.

(** The [while True] loop around it; the handler of [KeyboardInterrupt] is
    the same for an interrupt in [readline] and for one between the two
    calls. *)
Fixpoint rtl_power_loop_cancel (loops : Z) (st : scan_state) (sent : nat)
  (cancel : option nat) (proc : process) : run :=
  match proc with
  | [] => mk_run (Return (frequencies st)) sent
  | Interrupt :: _ => mk_run (Return (frequencies st)) (S sent)
  | Stdout line :: rest =>
      match Py.strip line with
      | EmptyString => mk_run (Return (frequencies st)) sent
      | stripped =>
          match parse_rtl_power stripped with
          | None => rtl_power_loop_cancel loops st sent cancel rest
          | Some (base_freq, interval, measurements) =>
              match rtl_power_bins_cancel loops base_freq interval 0 measurements
                      st sent cancel with
              | Failed e => mk_run (Raise e) sent
              | Cancelled st1 => mk_run (Return (frequencies st1)) (S sent)
              | Finished st1 sent1 cancel1 =>
                  rtl_power_loop_cancel loops st1 sent1 cancel1 rest
              end
          end
      end
  end.

(* ------------------------------------------------------------------ *)
(** ** get_frequency_swr_pairs (main.py 176-191) *)

(** [sum(xs)]: a left fold from 0. *)
Definition sum (xs : list R) : R := fold_left Rplus xs 0.

(** [a / b] on floats. *)
Definition py_div (a b : R) : result R :=
  if Req_dec_T b 0 then Raise ZeroDivisionError else Return (a / b).

(** [max(a, b)]: the first argument unless the second is larger. *)
Definition py_max (a b : R) : R := if Rlt_dec a b then b else a.

(** [sorted(xs)] on floats: the ascending rearrangement, here by insertion. *)
Fixpoint insert_sorted (x : R) (xs : list R) : list R :=
  match xs with
  | [] => [x]
  | y :: ys => if Rle_dec x y then x :: xs else y :: insert_sorted x ys
  end.

Definition sorted (xs : list R) : list R := fold_right insert_sorted [] xs.

(** main.py 183-184 *)
Definition mean (readings : list R) : result R :=
  py_div (sum readings) (INR (List.length readings)).

(** main.py 186 *)
Definition loss_of (pre_value post_value : R) : R :=
  py_max (pre_value - post_value) 0.001.

(** The formula of main.py 187, in the reals. *)
Definition swr_of_loss (loss : R) : R :=
  (Rpower 10 (loss / 20) + 1) / (Rpower 10 (loss / 20) - 1).

(** main.py 187, with the division that can raise. *)
Definition swr_div (loss : R) : result R :=
  py_div (Rpower 10 (loss / 20) + 1) (Rpower 10 (loss / 20) - 1).

(** The body of the [for] loop, main.py 180-189, for one frequency of a
    baseline keyed by floats, where [float(frequency)] is the key itself.
    The baseline keyed by text is the next section. *)
Definition swr_pair (baseline measurements : FrequencyPowerMap) (frequency : R)
  : result (R * R) :=
  match dict_get frequency baseline with
  | None => Raise (KeyError frequency)
  | Some pre =>
      match dict_get frequency measurements with
      | None => Raise (KeyError frequency)
      | Some post =>
          pre_value <- mean pre ;;
          post_value <- mean post ;;
          swr <- swr_div (loss_of pre_value post_value) ;;
          Return (frequency, swr)
      end
  end.

(** The [for] loop over the sorted keys, appending to [data_pairs]. *)
Fixpoint swr_loop (baseline measurements : FrequencyPowerMap)
  (todo : list R) (data_pairs : list (R * R)) : result (list (R * R)) :=
  match todo with
  | [] => Return data_pairs
  | frequency :: later =>
      pair <- swr_pair baseline measurements frequency ;;
      swr_loop baseline measurements later (data_pairs ++ [pair])
  end.

Definition get_frequency_swr_pairs (baseline measurements : FrequencyPowerMap)
  : result (list (R * R)) :=
  swr_loop baseline measurements (sorted (keys baseline)) [].

(* ------------------------------------------------------------------ *)
(** ** get_frequency_swr_pairs on the baseline [analyze] passes (main.py 236-245)

    [analyze] takes the baseline from [json.loads], and the keys of a JSON
    object are text, not floats.  On such a baseline [sorted] orders the keys
    as text, [float(frequency)] parses a key before the measurement is
    looked up, and the pair holds the key itself.  A key is modelled as a
    [string]; that is exact for the keys [baseline] writes, which are
    made of ASCII digits, [.], [e], [+] and [-]. *)

Definition JsonFrequencies : Type := list (string * list R).

Definition json_keys (d : JsonFrequencies) : list string := map fst d.

(** [d[k]] on text keys; [None] is [KeyError]. *)
Fixpoint json_get (k : string) (d : JsonFrequencies) : option (list R) :=
  match d with
  | [] => None
  | (k', readings) :: d' =>
      if String.eqb k' k then Some readings else json_get k d'
  end.

(** [sorted(xs)] on text: Python compares two texts character by character,
    by code point, and a proper prefix comes first. *)
Fixpoint insert_sorted_text (x : string) (xs : list string) : list string :=
  match xs with
  | [] => [x]
  | y :: ys => if String.leb x y then x :: xs else y :: insert_sorted_text x ys
  end.

Definition sorted_text (xs : list string) : list string :=
  fold_right insert_sorted_text [] xs.

(** The body of the [for] loop, main.py 180-189, for one text key. *)
Definition swr_pair_text (baseline : JsonFrequencies) (measurements : FrequencyPowerMap)
  (frequency : string) : result (string * R) :=
  match json_get frequency baseline with
  | None => Raise (KeyErrorText frequency)
  | Some pre =>
      match Py.float frequency with
      | None => Raise ValueError
      | Some key =>
          match dict_get key measurements with
          | None => Raise (KeyError key)
          | Some post =>
              pre_value <- mean pre ;;
              post_value <- mean post ;;
              swr <- swr_div (loss_of pre_value post_value) ;;
              Return (frequency, swr)
          end
      end
  end.

Fixpoint swr_loop_text (baseline : JsonFrequencies) (measurements : FrequencyPowerMap)
  (todo : list string) (data_pairs : list (string * R)) : result (list (string * R)) :=
  match todo with
  | [] => Return data_pairs
  | frequency :: later =>
      pair <- swr_pair_text baseline measurements frequency ;;
      swr_loop_text baseline measurements later (data_pairs ++ [pair])
  end.

Definition get_frequency_swr_pairs_text (baseline : JsonFrequencies)
  (measurements : FrequencyPowerMap) : result (list (string * R)) :=
  swr_loop_text baseline measurements (sorted_text (json_keys baseline)) [].

(* ------------------------------------------------------------------ *)
(** ** read_data_pairs_from_file (main.py 206-220)

    [io.open(path, 'r')] gives text, not bytes.  A text is the list of its
    code points.  Which characters [strip] removes from a text and which
    texts [float] accepts are decided by the interpreter's Unicode tables
    and number parser (white space beyond ASCII, digits of other scripts,
    [inf] and [nan]); the source shows neither, so both are parameters, and
    so is the type of the floats, with which this function does not
    compute. *)

Module Text.

Definition text : Type := list N.

Definition of_string (s : string) : text :=
  map N_of_ascii (list_ascii_of_string s).

(** The code point of the comma. *)
Definition comma : N := 44.

(** [s.split(sep)] for a one-character separator. *)
Fixpoint split (sep : N) (s : text) : list text :=
  match s with
  | c :: s' =>
      if N.eqb c sep then [] :: split sep s'
      else match split sep s' with
           | w :: ws => (c :: w) :: ws
           | [] => [[c]]
           end
  | [] => [[]]
  end.

Fixpoint lstrip (is_space : N -> bool) (s : text) : text :=
  match s with
  | c :: s' => if is_space c then lstrip is_space s' else s
  | [] => []
  end.

Fixpoint rstrip (is_space : N -> bool) (s : text) : text :=
  match s with
  | c :: s' =>
      match rstrip is_space s' with
      | [] => if is_space c then [] else [c]
      | t => c :: t
      end
  | [] => []
  end.

(** [s.strip()], given the characters that count as white space. *)
Definition strip (is_space : N -> bool) (s : text) : text :=
  lstrip is_space (rstrip is_space s).

End Text.

Section Reader.

Variable F : Type.
Variable is_space : N -> bool.
Variable float : Text.text -> option F.

(** The body of the [for line in data] loop, main.py 211-218: [Return None]
    is the [continue] on a blank line, [ValueError] what the two-name
    unpacking and [float] raise. *)
Definition read_data_pair (line : Text.text) : result (option (F * F)) :=
  match Text.strip is_space line with
  | [] => Return None
  | stripped =>
      match Text.split Text.comma stripped with
      | [frequency_str; swr_str] =>
          match float frequency_str with
          | None => Raise ValueError
          | Some frequency =>
              match float swr_str with
              | None => Raise ValueError
              | Some swr => Return (Some (frequency, swr))
              end
          end
      | _ => Raise ValueError
      end
  end.

(** The loop over the lines of the file, appending to [pairs]. *)
Fixpoint read_loop (lines : list Text.text) (pairs : list (F * F))
  : result (list (F * F)) :=
  match lines with
  | [] => Return pairs
  | line :: later =>
      item <- read_data_pair line ;;
      read_loop later (match item with
                       | Some found => pairs ++ [found]
                       | None => pairs
                       end)
  end.

(** The file is the list of its lines, as the iteration over it gives
    them. *)
Definition read_data_pairs_from_file (lines : list Text.text)
  : result (list (F * F)) :=
  read_loop lines [].

(** A line that [strip] empties. *)
Definition blank (line : Text.text) : bool :=
  match Text.strip is_space line with
  | [] => true
  | _ :: _ => false
  end.

(** A line that holds a pair: two comma-separated numbers. *)
Definition data_line (line : Text.text) (pair : F * F) : Prop :=
  exists frequency_str swr_str,
    Text.split Text.comma (Text.strip is_space line) = [frequency_str; swr_str] /\
    float frequency_str = Some (fst pair) /\
    float swr_str = Some (snd pair).

End Reader.

(* ------------------------------------------------------------------ *)
(** ** Notions used to state properties of the code *)

(** The signals the rtl_power scan sends once the threshold is reached: one
    for every further record that has a reading, until a blank line or the
    end of the stream, and one for a cancellation. *)
Fixpoint signals_after_completion (proc : process) : nat :=
  match proc with
  | [] => 0
  | Interrupt :: _ => 1
  | Stdout line :: rest =>
      match Py.strip line with
      | EmptyString => 0
      | stripped =>
          match parse_rtl_power stripped with
          | Some (_, _, _ :: _) => S (signals_after_completion rest)
          | _ => signals_after_completion rest
          end
      end
  end.


(* ------------------------------------------------------------------ *)
(** ** The specification's words, kept apart from the code *)

(** The arithmetic mean, as mathematics writes it. *)
Definition arithmetic_mean (xs : list R) : R :=
  fold_right Rplus 0 xs / INR (List.length xs).

(** The SWR of two averages as section 4.5 of the specification states it. *)
Definition spec_swr (baseline_avg measurement_avg : R) : R :=
  let loss := Rmax (baseline_avg - measurement_avg) 0.001 in
  let ratio := Rpower 10 (loss / 20) in
  (ratio + 1) / (ratio - 1).

(** How the osmocom loop would treat a parsed sample if the wrap-around test
    were made on [tested]: the sample is recorded under [center] unless the
    test completes the scan. *)
Definition osmocom_sample_step (tested center power : R)
  (fuel : nat) (loops : Z) (st : scan_state) (rest : process) : option run :=
  let st1 := detect tested st in
  if (loop_cursor st1 >=? loops)%Z
  then Some (mk_run (Return (frequencies st1)) 1)
  else osmocom_loop fuel loops (record center power st1) rest.

(** The samples of one Format B record as section 4.2 states them: reading
    number [i] is the power at [base + i * step]. *)
Fixpoint bin_samples (base step : R) (bin_index : nat) (powers : list R)
  : list (R * R) :=
  match powers with
  | [] => []
  | power :: later =>
      (base + INR bin_index * step, power) :: bin_samples base step (S bin_index) later
  end.

(** Every sample of a list recorded, in order. *)
Definition record_all (samples : list (R * R)) (d : FrequencyPowerMap)
  : FrequencyPowerMap :=
  fold_left (fun d sample => setdefault_append (fst sample) (snd sample) d) samples d.

(** The reading of the specification in which completion detection looks at
    the centre frequency of the sample. *)
Definition detection_on_center_freq : Prop :=
  forall fuel loops st line rest cs fs ps c f p,
    unpack_osmocom (Py.split " " (Py.strip line)) = Some (cs, fs, ps) ->
    Py.float cs = Some c -> Py.float fs = Some f -> Py.float ps = Some p ->
    osmocom_loop (S fuel) loops st (Stdout line :: rest)
    = osmocom_sample_step c c p fuel loops st rest.

(* ------------------------------------------------------------------ *)
(** ** Inputs used in the examples *)

Definition newline : string := String (ascii_of_nat 10) EmptyString.

(** A line as osmocom_spectrum_sense prints it (main.py 72-74). *)
Definition osmocom_line (center_freq freq power_db : string) : string :=
  ("2015-08-17 20:32:17.464280 center_freq " ++ center_freq
   ++ " freq " ++ freq ++ " power_db " ++ power_db
   ++ " noise_floor_db -75.9338252561" ++ newline)%string.

(** The sweep of the specification's section 8: frequencies 10, 20, 30, 5,
    15, 25, 40, each sample keyed by its own frequency. *)
Definition sweep_example : process :=
  map (fun f => Stdout (osmocom_line f f "-70"))
      ["10"; "20"; "30"; "5"; "15"; "25"; "40"]%string.

(** The Format B line of the specification's section 8. *)
Definition rtl_power_example : string :=
  ("2015-08-17, 20:32:17, 750000000, 950000000, 100000, -70.1, -68.3, -65.0"
   ++ newline)%string.

(** A line as rtl_power prints it: the sixth field is the sample count. *)
Definition rtl_power_real_line : string :=
  ("2015-08-17, 20:32:17, 750000000, 950000000, 100000, 512, -70.1, -68.3, -65.0"
   ++ newline)%string.

(** A start-up line of ten words, none of them a number. *)
Definition ten_word_header : string :=
  ("built-in source types: file fcd rtl rtl_tcp uhd hackrf bladerf"
   ++ newline)%string.

(** A record of rtl_power whose second reading is not a number. *)
Definition rtl_power_bad_line : string :=
  ("2015-08-17, 20:32:17, 750000000, 950000000, 100000, 512, -70.1, n/a"
   ++ newline)%string.

(** The frequencies of a baseline file for 950 MHz and 1 GHz, with the keys
    as [json.dumps] writes two float keys and [json.loads] reads them back. *)
Definition json_baseline_example : JsonFrequencies :=
  [("950000000.0"%string, [-40; -42]); ("1000000000.0"%string, [-30])].

(** A scan of the same two frequencies. *)
Definition scan_example : FrequencyPowerMap :=
  [(950000000, [-51]); (1000000000, [-38])].

(** The white space of ASCII, as a set of code points. *)
Definition ascii_space (c : N) : bool :=
  (N.leb 9 c && N.leb c 13) || N.eqb c 32.

(** The text as a byte string, when every code point is below 128. *)
Fixpoint ascii_text (t : Text.text) : option string :=
  match t with
  | [] => Some EmptyString
  | c :: t' =>
      if N.ltb c 128
      then option_map (String (ascii_of_N c)) (ascii_text t')
      else None
  end.

(** The numbers of ASCII text, read as [Py.float] reads them. *)
Definition ascii_float (t : Text.text) : option R :=
  match ascii_text t with
  | Some s => Py.float s
  | None => None
  end.

(* ================================================================== *)
(** * Properties *)

(** ** The built-ins on the inputs the source comments show *)

Example strip_newline : Py.strip (" a b" ++ newline) = "a b"%string.
Proof. reflexivity. Qed.

Example split_eof : Py.split " " EmptyString = [EmptyString].
Proof. reflexivity. Qed.

Example split_commas : Py.split "," "a,,b," = ["a"; EmptyString; "b"; EmptyString]%string.
Proof. reflexivity. Qed.

Example parse_float_neg : Py.parse_float " -70.1" = Some (Qmake (-701) 10).
Proof. reflexivity. Qed.

Example parse_float_exp : Py.parse_float "7.65e8" = Some (Qmake 765000000 1).
Proof. reflexivity. Qed.

Example parse_float_word : Py.parse_float "center_freq" = None.
Proof. reflexivity. Qed.

Example unpack_comment_line :
  unpack_osmocom (Py.split " " (Py.strip
    (osmocom_line "765000000.0" "767993750.0" "3.53722358601")))
  = Some ("765000000.0", "767993750.0", "3.53722358601")%string.
Proof. reflexivity. Qed.

Example unpack_header : unpack_osmocom (Py.split " " "garbage header text") = None.
Proof. reflexivity. Qed.

Lemma float_of_parse (s : string) (q : Q) :
  Py.parse_float s = Some q -> Py.float s = Some (Q2R q).
Proof. unfold Py.float; intros ->; reflexivity. Qed.

Lemma float_of_parse_none (s : string) :
  Py.parse_float s = None -> Py.float s = None.
Proof. unfold Py.float; intros ->; reflexivity. Qed.

Lemma Q2R_int (n : Z) : Q2R (Qmake n 1) = IZR n.
Proof. unfold Q2R; simpl; field. Qed.

Lemma float_int (s : string) (n : Z) :
  Py.parse_float s = Some (Qmake n 1) -> Py.float s = Some (IZR n).
Proof. intros H; rewrite (float_of_parse _ H), Q2R_int; reflexivity. Qed.

Lemma float_tenths (s : string) (n : Z) :
  Py.parse_float s = Some (Qmake n 10) -> Py.float s = Some (IZR n / 10).
Proof.
  intros H; rewrite (float_of_parse _ H); unfold Q2R; simpl; reflexivity.
Qed.

Ltac parse_field :=
  first [ apply float_int; cbv; reflexivity
        | apply float_tenths; cbv; reflexivity
        | apply float_of_parse; cbv; reflexivity ].

(** ** Arithmetic of the deriver *)

Lemma py_max_Rmax (a b : R) : py_max a b = Rmax a b.
Proof.
  unfold py_max, Rmax.
  destruct (Rlt_dec a b), (Rle_dec a b); lra.
Qed.

Lemma loss_floor (pre_value post_value : R) : 0.001 <= loss_of pre_value post_value.
Proof.
  unfold loss_of; rewrite py_max_Rmax; apply Rmax_r.
Qed.

Lemma sum_from (xs : list R) (a : R) : fold_left Rplus xs a = a + fold_right Rplus 0 xs.
Proof.
  revert a; induction xs as [|x xs IH]; intros a; simpl.
  - lra.
  - rewrite IH; lra.
Qed.

Lemma sum_fold_right (xs : list R) : sum xs = fold_right Rplus 0 xs.
Proof. unfold sum; rewrite sum_from; lra. Qed.

Lemma mean_nonempty (readings : list R) :
  readings <> [] -> mean readings = Return (arithmetic_mean readings).
Proof.
  intros Hne; unfold mean, py_div, arithmetic_mean.
  destruct (Req_dec_T (INR (List.length readings)) 0) as [Hz|Hz].
  - destruct readings as [|x xs]; [congruence|].
    change (List.length (x :: xs)) with (S (List.length xs)) in Hz.
    rewrite S_INR in Hz. pose proof (pos_INR (List.length xs)). lra.
  - now rewrite sum_fold_right.
Qed.

Lemma mean_empty : mean [] = Raise ZeroDivisionError.
Proof.
  unfold mean, py_div; simpl.
  destruct (Req_dec_T 0 0); [reflexivity | lra].
Qed.

Lemma ratio_gt_1 (loss : R) : 0 < loss -> 1 < Rpower 10 (loss / 20).
Proof.
  intros Hl.
  rewrite <- (Rpower_O 10) by lra.
  apply Rpower_lt; lra.
Qed.

Lemma swr_div_defined (loss : R) :
  0 < loss -> swr_div loss = Return (swr_of_loss loss).
Proof.
  intros Hl; pose proof (ratio_gt_1 Hl) as Hr.
  unfold swr_div, py_div, swr_of_loss.
  destruct (Req_dec_T (Rpower 10 (loss / 20) - 1) 0); [lra | reflexivity].
Qed.

Lemma swr_of_loss_spec (pre_value post_value : R) :
  swr_of_loss (loss_of pre_value post_value) = spec_swr pre_value post_value.
Proof. unfold spec_swr, swr_of_loss, loss_of; now rewrite py_max_Rmax. Qed.

(** ** The dict operations *)

Lemma dict_get_In (k : R) (d : FrequencyPowerMap) (readings : list R) :
  dict_get k d = Some readings -> In (k, readings) d.
Proof.
  induction d as [|[k' r'] d IH]; simpl; [discriminate|].
  destruct (Req_dec_T k' k) as [->|Hne]; intros H.
  - left; congruence.
  - right; auto.
Qed.



Lemma dict_get_same (k v : R) (d : FrequencyPowerMap) :
  dict_get k (setdefault_append k v d)
  = Some (match dict_get k d with Some readings => readings ++ [v] | None => [v] end).
Proof.
  induction d as [|[k' r'] d IH]; simpl.
  - destruct (Req_dec_T k k); [reflexivity | congruence].
  - destruct (Req_dec_T k' k) as [->|Hne]; simpl.
    + destruct (Req_dec_T k k); [reflexivity | congruence].
    + destruct (Req_dec_T k' k); [contradiction | exact IH].
Qed.

Lemma dict_get_other (k k0 v : R) (d : FrequencyPowerMap) :
  k0 <> k -> dict_get k (setdefault_append k0 v d) = dict_get k d.
Proof.
  intros Hne; induction d as [|[k' r'] d IH]; simpl.
  - destruct (Req_dec_T k0 k); [contradiction | reflexivity].
  - destruct (Req_dec_T k' k0) as [->|Hne']; simpl.
    + destruct (Req_dec_T k0 k); [contradiction | reflexivity].
    + destruct (Req_dec_T k' k); [reflexivity | exact IH].
Qed.

(** ** [sorted] *)

Lemma insert_sorted_perm (x : R) (xs : list R) :
  Permutation (insert_sorted x xs) (x :: xs).
Proof.
  induction xs as [|y ys IH]; simpl; [reflexivity|].
  destruct (Rle_dec x y); [reflexivity|].
  rewrite IH; apply perm_swap.
Qed.

Lemma sorted_perm (xs : list R) : Permutation (sorted xs) xs.
Proof.
  induction xs as [|x xs IH]; simpl; [reflexivity|].
  rewrite insert_sorted_perm; auto.
Qed.

Lemma insert_sorted_ascending (x : R) (xs : list R) :
  Sorted Rle xs -> Sorted Rle (insert_sorted x xs).
Proof.
  induction xs as [|y ys IH]; simpl; intros Hs.
  - repeat constructor.
  - destruct (Rle_dec x y) as [Hle|Hgt].
    + constructor; [assumption | constructor; assumption].
    + inversion Hs as [|? ? Hys Hhd]; subst.
      constructor; [auto|].
      destruct ys as [|z zs]; simpl.
      * constructor; lra.
      * destruct (Rle_dec x z); constructor; try lra.
        inversion Hhd; assumption.
Qed.

Lemma sorted_ascending (xs : list R) : Sorted Rle (sorted xs).
Proof.
  induction xs as [|x xs IH]; simpl; [constructor|].
  now apply insert_sorted_ascending.
Qed.

(** ** The deriver's loop *)






(** ** The SWR deriver on a baseline read from JSON *)

Lemma swr_pair_text_defined (baseline : JsonFrequencies)
  (measurements : FrequencyPowerMap) (frequency : string) (key : R)
  (pre post : list R) :
  json_get frequency baseline = Some pre ->
  Py.float frequency = Some key ->
  dict_get key measurements = Some post ->
  pre <> [] -> post <> [] ->
  swr_pair_text baseline measurements frequency
  = Return (frequency, spec_swr (arithmetic_mean pre) (arithmetic_mean post)).
Proof.
  intros Hpre Hkey Hpost Hne1 Hne2; unfold swr_pair_text.
  rewrite Hpre, Hkey, Hpost, (mean_nonempty Hne1), (mean_nonempty Hne2); simpl.
  rewrite swr_div_defined; simpl.
  - now rewrite swr_of_loss_spec.
  - pose proof (loss_floor (arithmetic_mean pre) (arithmetic_mean post)); lra.
Qed.

Lemma swr_pair_text_key (baseline : JsonFrequencies)
  (measurements : FrequencyPowerMap) (frequency : string) (pair : string * R) :
  swr_pair_text baseline measurements frequency = Return pair ->
  fst pair = frequency.
Proof.
  unfold swr_pair_text.
  destruct (json_get frequency baseline) as [pre|]; [|discriminate].
  destruct (Py.float frequency) as [key|]; [|discriminate].
  destruct (dict_get key measurements) as [post|]; [|discriminate].
  destruct (mean pre) as [pre_value|]; [|discriminate].
  destruct (mean post) as [post_value|]; [|discriminate].
  simpl. destruct (swr_div _) as [swr|]; [|discriminate].
  simpl; intros [= <-]; reflexivity.
Qed.

Lemma swr_loop_text_keys (baseline : JsonFrequencies)
  (measurements : FrequencyPowerMap) (todo : list string)
  (data_pairs out : list (string * R)) :
  swr_loop_text baseline measurements todo data_pairs = Return out ->
  map fst out = map fst data_pairs ++ todo.
Proof.
  revert data_pairs; induction todo as [|k todo IH]; intros data_pairs; simpl.
  - intros [= <-]; now rewrite app_nil_r.
  - destruct (swr_pair_text baseline measurements k) as [pair|] eqn:Hpair;
      [|discriminate].
    simpl; intros H; rewrite (IH _ H), map_app; simpl.
    rewrite (swr_pair_text_key _ _ _ Hpair), <- app_assoc; reflexivity.
Qed.

(** Whatever the deriver returns on a baseline read from JSON has the keys
    in the order [sorted] gives text. *)
Lemma get_frequency_swr_pairs_text_order (baseline : JsonFrequencies)
  (measurements : FrequencyPowerMap) (data_pairs : list (string * R)) :
  get_frequency_swr_pairs_text baseline measurements = Return data_pairs ->
  map fst data_pairs = sorted_text (json_keys baseline).
Proof.
  intros H; apply swr_loop_text_keys in H; exact H.
Qed.

(** C1, where the code departs from it.  On the call [analyze] makes, the
    pairs do not come out in ascending order of frequency.  The baseline of
    a file for 950 MHz and 1 GHz has the keys ["950000000.0"] and
    ["1000000000.0"]; [sorted] puts the text that starts with [1] before
    the text that starts with [9], so the pair of 1 GHz is returned before
    the pair of 950 MHz.  Each SWR is the formula at the loss of its own
    frequency: 8 dB and 10 dB. *)
Theorem json_baseline_is_ordered_as_text :
  get_frequency_swr_pairs_text json_baseline_example scan_example
  = Return [("1000000000.0"%string, swr_of_loss 8);
            ("950000000.0"%string, swr_of_loss 10)] /\
  Py.float "1000000000.0" = Some 1000000000 /\
  Py.float "950000000.0" = Some 950000000 /\
  950000000 < 1000000000.
Proof.
  assert (H1000 : Py.float "1000000000.0" = Some 1000000000).
  { replace 1000000000 with (10000000000 / 10) by lra. parse_field. }
  assert (H950 : Py.float "950000000.0" = Some 950000000).
  { replace 950000000 with (9500000000 / 10) by lra. parse_field. }
  split; [|split; [exact H1000 | split; [exact H950 | lra]]].
  unfold get_frequency_swr_pairs_text.
  change (sorted_text (json_keys json_baseline_example))
    with ["1000000000.0"; "950000000.0"]%string.
  cbn [swr_loop_text].
  rewrite (@swr_pair_text_defined json_baseline_example scan_example
             "1000000000.0" 1000000000 [-30] [-38]);
    [ | reflexivity | exact H1000 | | discriminate | discriminate ].
  2:{ unfold scan_example; cbn [dict_get].
      destruct (Req_dec_T 950000000 1000000000); [exfalso; lra|].
      destruct (Req_dec_T 1000000000 1000000000); [reflexivity | exfalso; lra]. }
  cbn [bind app].
  rewrite (@swr_pair_text_defined json_baseline_example scan_example
             "950000000.0" 950000000 [-40; -42] [-51]);
    [ | reflexivity | exact H950 | | discriminate | discriminate ].
  2:{ unfold scan_example; cbn [dict_get].
      destruct (Req_dec_T 950000000 950000000); [reflexivity | exfalso; lra]. }
  cbn [bind app].
  rewrite <- !swr_of_loss_spec.
  replace (loss_of (arithmetic_mean [-30]) (arithmetic_mean [-38])) with 8.
  2:{ unfold loss_of, py_max, arithmetic_mean; simpl.
      destruct (Rlt_dec _ _); lra. }
  replace (loss_of (arithmetic_mean [-40; -42]) (arithmetic_mean [-51])) with 10.
  2:{ unfold loss_of, py_max, arithmetic_mean; simpl.
      destruct (Rlt_dec _ _); lra. }
  reflexivity.
Qed.

(** ** The SWR deriver *)



(** ** The scan state *)

Lemma detect_wrap (freq : R) (st : scan_state) :
  freq <= max_encountered_frequency st ->
  detect freq st
  = mk_state (frequencies st) (loop_cursor st + 1) (max_encountered_frequency st).
Proof. intros H; unfold detect; destruct (Rle_dec _ _); [reflexivity | contradiction]. Qed.

Lemma detect_advance (freq : R) (st : scan_state) :
  max_encountered_frequency st < freq ->
  detect freq st = mk_state (frequencies st) (loop_cursor st) freq.
Proof. intros H; unfold detect; destruct (Rle_dec _ _); [lra | reflexivity]. Qed.

Lemma detect_frequencies (freq : R) (st : scan_state) :
  frequencies (detect freq st) = frequencies st.
Proof. unfold detect; destruct (Rle_dec _ _); reflexivity. Qed.

Lemma detect_cursor (freq : R) (st : scan_state) :
  (loop_cursor st <= loop_cursor (detect freq st) <= loop_cursor st + 1)%Z.
Proof. unfold detect; destruct (Rle_dec _ _); simpl; lia. Qed.

(** ** The osmocom loop, one event at a time *)

Lemma osmocom_loop_eof (fuel : nat) (loops : Z) (st : scan_state) :
  osmocom_loop fuel loops st [] = None.
Proof. induction fuel as [|fuel IH]; [reflexivity | exact IH]. Qed.

Lemma osmocom_loop_interrupt (fuel : nat) (loops : Z) (st : scan_state) (rest : process) :
  osmocom_loop (S fuel) loops st (Interrupt :: rest)
  = Some (mk_run (Raise KeyboardInterrupt) 1).
Proof. reflexivity. Qed.

Lemma osmocom_loop_skip (fuel : nat) (loops : Z) (st : scan_state)
  (line : string) (rest : process) :
  unpack_osmocom (Py.split " " (Py.strip line)) = None ->
  osmocom_loop (S fuel) loops st (Stdout line :: rest) = osmocom_loop fuel loops st rest.
Proof. intros H; simpl; rewrite H; reflexivity. Qed.

Lemma osmocom_loop_bad_freq (fuel : nat) (loops : Z) (st : scan_state)
  (line : string) (rest : process) (cs fs ps : string) :
  unpack_osmocom (Py.split " " (Py.strip line)) = Some (cs, fs, ps) ->
  Py.float fs = None ->
  osmocom_loop (S fuel) loops st (Stdout line :: rest) = Some (mk_run (Raise ValueError) 0).
Proof. intros H Hf; simpl; rewrite H, Hf; reflexivity. Qed.

Lemma osmocom_loop_sample (fuel : nat) (loops : Z) (st : scan_state)
  (line : string) (rest : process) (cs fs ps : string) (c f p : R) :
  unpack_osmocom (Py.split " " (Py.strip line)) = Some (cs, fs, ps) ->
  Py.float cs = Some c -> Py.float fs = Some f -> Py.float ps = Some p ->
  osmocom_loop (S fuel) loops st (Stdout line :: rest)
  = osmocom_sample_step f c p fuel loops st rest.
Proof.
  intros H Hc Hf Hp; unfold osmocom_sample_step; simpl.
  rewrite H, Hf, Hc, Hp; reflexivity.
Qed.

(** More fuel does not change a result that was reached. *)
Lemma osmocom_loop_fuel (fuel fuel' : nat) (loops : Z) (st : scan_state)
  (proc : process) (r : run) :
  osmocom_loop fuel loops st proc = Some r -> (fuel <= fuel')%nat ->
  osmocom_loop fuel' loops st proc = Some r.
Proof.
  revert fuel' st proc; induction fuel as [|fuel IH]; intros fuel' st proc H Hle.
  - discriminate.
  - destruct fuel' as [|fuel']; [lia|].
    simpl in *. destruct (readline proc) as [line rest|]; [|assumption].
    destruct (unpack_osmocom _) as [[[cs fs] ps]|]; [|apply IH; [assumption|lia]].
    destruct (Py.float fs) as [f|]; [|assumption].
    destruct (_ >=? _)%Z; [assumption|].
    destruct (Py.float cs) as [c|]; [|assumption].
    destruct (Py.float ps) as [p|]; [|assumption].
    apply IH; [assumption|lia].
Qed.


Lemma sample_step_completes (tested c p : R) (fuel : nat) (loops : Z)
  (st : scan_state) (rest : process) :
  (loops <= loop_cursor (detect tested st))%Z ->
  osmocom_sample_step tested c p fuel loops st rest
  = Some (mk_run (Return (frequencies st)) 1).
Proof.
  intros H; unfold osmocom_sample_step.
  destruct (Z.geb_spec (loop_cursor (detect tested st)) loops); [|lia].
  now rewrite detect_frequencies.
Qed.

Lemma sample_step_records (tested c p : R) (fuel : nat) (loops : Z)
  (st : scan_state) (rest : process) :
  (loop_cursor (detect tested st) < loops)%Z ->
  osmocom_sample_step tested c p fuel loops st rest
  = osmocom_loop fuel loops (record c p (detect tested st)) rest.
Proof.
  intros H; unfold osmocom_sample_step.
  destruct (Z.geb_spec (loop_cursor (detect tested st)) loops); [lia | reflexivity].
Qed.

(** Tactics that run the loops on a written-out input: the fields are split
    and parsed by computation, the comparisons of reals go to [lra]. *)
Ltac decide_reals :=
  unfold record;
  cbn [frequencies loop_cursor max_encountered_frequency setdefault_append dict_get INR];
  repeat match goal with
    | |- context [Req_dec_T ?a ?b] =>
        destruct (Req_dec_T a b) as [?|?]; [ try (exfalso; lra) | try (exfalso; lra) ]
    end.

Ltac maximum_side := cbn [max_encountered_frequency]; lra.
Ltac cursor_side := cbn [loop_cursor]; lia.

Ltac osmocom_read :=
  erewrite osmocom_loop_sample;
  [ | cbv; reflexivity | parse_field | parse_field | parse_field ].

(** A sample above the maximum, recorded. *)
Ltac osmocom_advance :=
  osmocom_read;
  rewrite sample_step_records;
  [ rewrite detect_advance; [ | maximum_side ]
  | rewrite detect_advance; [ cursor_side | maximum_side ] ];
  decide_reals.

(** A sample at or below the maximum, counted and recorded. *)
Ltac osmocom_wrap :=
  osmocom_read;
  rewrite sample_step_records;
  [ rewrite detect_wrap; [ | maximum_side ]
  | rewrite detect_wrap; [ cursor_side | maximum_side ] ];
  decide_reals.

(** A sample at or below the maximum that reaches the threshold. *)
Ltac osmocom_complete :=
  osmocom_read;
  rewrite sample_step_completes;
  [ | rewrite detect_wrap; [ cursor_side | maximum_side ] ];
  decide_reals.

(** The sweep 10, 20, 30, 5, 15, 25, 40 with threshold 1: the scan is still
    running after three samples, and the fourth, 5, ends it before it is
    recorded. *)
Lemma sweep_example_run (fuel : nat) :
  get_antenna_statistics_osmocom 3 sweep_example 1 = None /\
  get_antenna_statistics_osmocom (4 + fuel) sweep_example 1
  = Some (mk_run (Return [(10, [-70]); (20, [-70]); (30, [-70])]) 1).
Proof.
  unfold get_antenna_statistics_osmocom, sweep_example, initial_state.
  cbn [map Nat.add]. split.
  - do 3 osmocom_advance. reflexivity.
  - do 3 osmocom_advance. osmocom_complete. reflexivity.
Qed.

(** ** The sweep aggregator *)




(** ** Which field the osmocom scan tests, and which it keys by *)

(** C7 as stated fails: the loop is not the one that tests the centre
    frequency.  With the maximum at 766 MHz, the line of the source's own
    comment (centre 765 MHz, freq 767.99375 MHz) is above the maximum for the
    code, which goes on reading, and a wrap-around for the claim, which
    would complete the scan at threshold 1. *)
Lemma detection_is_not_on_center_freq : ~ detection_on_center_freq.
Proof.
  intros Hclaim.
  assert (Hu : unpack_osmocom (Py.split " " (Py.strip
                 (osmocom_line "765000000.0" "767993750.0" "3.53722358601")))
               = Some ("765000000.0", "767993750.0", "3.53722358601")%string)
    by reflexivity.
  assert (Hc : Py.float "765000000.0" = Some (7650000000 / 10))
    by (apply float_tenths; reflexivity).
  assert (Hf : Py.float "767993750.0" = Some (7679937500 / 10))
    by (apply float_tenths; reflexivity).
  pose proof (float_of_parse "3.53722358601" eq_refl) as Hp.
  pose proof (Hclaim 0%nat 1%Z (mk_state [] 0 766000000) _ [] _ _ _ _ _ _ Hu Hc Hf Hp)
    as Heq.
  rewrite (osmocom_loop_sample _ _ _ _ _ Hu Hc Hf Hp) in Heq.
  rewrite sample_step_records in Heq
    by (rewrite detect_advance by maximum_side; cursor_side).
  rewrite sample_step_completes in Heq
    by (rewrite detect_wrap by maximum_side; cursor_side).
  discriminate Heq.
Qed.

(** C7, amended.  For a line that parses, the wrap-around test of the
    osmocom scan is made on the [freq] field: the counter goes up exactly
    when [freq] is at most the running maximum.  When the scan goes on, the
    power reading is appended under the key [center_freq], and the entry of
    the [freq] field, when that is another number, is left as it was. *)
Theorem osmocom_tests_freq_and_keys_by_center
  (fuel : nat) (loops : Z) (st : scan_state) (line : string) (rest : process)
  (cs fs ps : string) (c f p : R) :
  unpack_osmocom (Py.split " " (Py.strip line)) = Some (cs, fs, ps) ->
  Py.float cs = Some c -> Py.float fs = Some f -> Py.float ps = Some p ->
  osmocom_loop (S fuel) loops st (Stdout line :: rest)
  = osmocom_sample_step f c p fuel loops st rest /\
  (loop_cursor (detect f st) = (loop_cursor st + 1)%Z <-> f <= max_encountered_frequency st) /\
  dict_get c (frequencies (record c p (detect f st)))
  = Some (match dict_get c (frequencies st) with
          | Some readings => readings ++ [p]
          | None => [p]
          end) /\
  (f <> c ->
   dict_get f (frequencies (record c p (detect f st))) = dict_get f (frequencies st)).
Proof.
  intros Hu Hc Hf Hp.
  split; [now apply (osmocom_loop_sample _ _ _ _ _ Hu Hc Hf Hp)|].
  split.
  { unfold detect; destruct (Rle_dec f (max_encountered_frequency st)); simpl;
      split; intros; try assumption; try reflexivity; try lia; contradiction. }
  simpl; rewrite detect_frequencies; split.
  - apply dict_get_same.
  - intros Hne; apply dict_get_other; congruence.
Qed.

(** C7 on the line of the source's comment, from the initial state. *)
Lemma osmocom_tests_freq_and_keys_by_center_witness :
  osmocom_loop 1 osmocom_loops initial_state
    [Stdout (osmocom_line "765000000.0" "767993750.0" "3.53722358601")]
  = osmocom_sample_step (7679937500 / 10) (7650000000 / 10)
      (Q2R (Qmake 353722358601 100000000000)) 0 osmocom_loops initial_state [] /\
  (loop_cursor (detect (7679937500 / 10) initial_state)
   = (loop_cursor initial_state + 1)%Z
   <-> 7679937500 / 10 <= max_encountered_frequency initial_state) /\
  dict_get (7650000000 / 10)
    (frequencies (record (7650000000 / 10) (Q2R (Qmake 353722358601 100000000000))
                    (detect (7679937500 / 10) initial_state)))
  = Some (match dict_get (7650000000 / 10) (frequencies initial_state) with
          | Some readings => readings ++ [Q2R (Qmake 353722358601 100000000000)]
          | None => [Q2R (Qmake 353722358601 100000000000)]
          end) /\
  (7679937500 / 10 <> 7650000000 / 10 ->
   dict_get (7679937500 / 10)
     (frequencies (record (7650000000 / 10) (Q2R (Qmake 353722358601 100000000000))
                     (detect (7679937500 / 10) initial_state)))
   = dict_get (7679937500 / 10) (frequencies initial_state)).
Proof.
  apply (@osmocom_tests_freq_and_keys_by_center 0 osmocom_loops initial_state
           (osmocom_line "765000000.0" "767993750.0" "3.53722358601") []
           "765000000.0" "767993750.0" "3.53722358601").
  - reflexivity.
  - apply float_tenths; reflexivity.
  - apply float_tenths; reflexivity.
  - apply float_of_parse; reflexivity.
Defined.

(** ** Lines that are not data *)

(** C6, where the code departs from it.  A line whose field count is not ten
    is skipped, whatever it holds.  A line of ten fields whose [freq] field
    is not a number is not skipped: [float(freq)] stands outside the [try],
    and the scan ends in [ValueError] with no signal sent to the child.  A
    start-up line of ten words does that from any state. *)
Theorem osmocom_ten_words_abort_the_scan :
  (forall fuel loops st line rest,
     List.length (Py.split " " (Py.strip line)) <> 10%nat ->
     osmocom_loop (S fuel) loops st (Stdout line :: rest)
     = osmocom_loop fuel loops st rest) /\
  (forall fuel loops st rest,
     osmocom_loop (S fuel) loops st (Stdout ten_word_header :: rest)
     = Some (mk_run (Raise ValueError) 0)).
Proof.
  split.
  - intros fuel loops st line rest Hlen.
    apply osmocom_loop_skip.
    destruct (Py.split " " (Py.strip line))
      as [|? [|? [|? [|? [|? [|? [|? [|? [|? [|? [|? ?]]]]]]]]]]];
      try reflexivity.
    simpl in Hlen; lia.
  - intros fuel loops st rest.
    apply (@osmocom_loop_bad_freq fuel loops st ten_word_header rest "file" "rtl" "uhd");
      reflexivity.
Qed.

(** ** The end of the stream *)

(** C4, where the code departs from it.  At the end of the stream the rtl_power
    loop returns the map gathered so far, and so it does on a blank line.
    The osmocom loop does not: on a closed pipe it reads the empty string,
    fails to unpack it and reads again, for ever.  No amount of fuel makes
    it return, from the start or after a sweep that ended early. *)
Theorem osmocom_never_returns_at_end_of_stream :
  (forall loops st sent,
     rtl_power_loop loops st sent [] = mk_run (Return (frequencies st)) sent) /\
  (forall loops st sent rest,
     rtl_power_loop loops st sent (Stdout newline :: rest)
     = mk_run (Return (frequencies st)) sent) /\
  (forall fuel loops st, osmocom_loop fuel loops st [] = None) /\
  (forall fuel, get_antenna_statistics_osmocom fuel [] osmocom_loops = None) /\
  (forall fuel, get_antenna_statistics_osmocom fuel (firstn 3 sweep_example) 1 = None).
Proof.
  split; [reflexivity|].
  split; [reflexivity|].
  split; [exact osmocom_loop_eof|].
  split; [intros fuel; apply osmocom_loop_eof|].
  intros fuel.
  unfold get_antenna_statistics_osmocom, sweep_example, initial_state.
  cbn [map firstn].
  destruct fuel as [|[|[|fuel]]]; [reflexivity | ..].
  - osmocom_advance. reflexivity.
  - do 2 osmocom_advance. reflexivity.
  - do 3 osmocom_advance. apply osmocom_loop_eof.
Qed.

(** ** Cancellation *)

Lemma rtl_power_loop_never_raises_interrupt (loops : Z) (st : scan_state)
  (sent : nat) (proc : process) :
  outcome (rtl_power_loop loops st sent proc) <> Raise KeyboardInterrupt.
Proof.
  revert st sent; induction proc as [|[line|] rest IH]; intros st sent; simpl;
    try discriminate.
  destruct (Py.strip line); [discriminate|].
  destruct (parse_rtl_power _) as [[[base step] ms]|]; [|apply IH].
  destruct (rtl_power_bins loops base step 0 ms st sent) as [[st1 sent1]|e] eqn:E.
  - apply IH.
  - simpl. intros [= ->]. revert E. generalize 0%nat. clear.
    revert st; induction ms as [|m ms IHm]; intros st idx; simpl; [discriminate|].
    destruct (_ >=? _)%Z; [discriminate|].
    destruct (Py.float m); [apply IHm | discriminate].
Qed.

(** C3, where the code departs from it.  The osmocom scan answers a
    cancellation with one signal to the child and raises it again.  The
    rtl_power scan sends the signal and then returns the map gathered so
    far: its handler has no [raise], and no run of it ends in
    [KeyboardInterrupt]. *)
Theorem rtl_power_absorbs_cancellation :
  (forall fuel loops st rest,
     osmocom_loop (S fuel) loops st (Interrupt :: rest)
     = Some (mk_run (Raise KeyboardInterrupt) 1)) /\
  (forall loops st sent rest,
     rtl_power_loop loops st sent (Interrupt :: rest)
     = mk_run (Return (frequencies st)) (S sent)) /\
  (forall proc loops,
     outcome (get_antenna_statistics_rtl_power proc loops) <> Raise KeyboardInterrupt) /\
  get_antenna_statistics_rtl_power [Interrupt] rtl_power_loops = mk_run (Return []) 1.
Proof.
  split; [reflexivity|].
  split; [reflexivity|].
  split; [|reflexivity].
  intros proc loops; apply rtl_power_loop_never_raises_interrupt.
Qed.

(** ** The rtl_power loop, one record at a time *)

Lemma parse_rtl_power_fields (line f1 f2 f3 f4 f5 f6 : string)
  (readings : list string) (base step : R) :
  Py.split "," line = f1 :: f2 :: f3 :: f4 :: f5 :: f6 :: readings ->
  Py.float f3 = Some base -> Py.float f5 = Some step ->
  parse_rtl_power line = Some (base, step, readings).
Proof.
  intros Hs Hb Hi; unfold parse_rtl_power; rewrite Hs; simpl.
  rewrite Hb, Hi; reflexivity.
Qed.

Lemma rtl_power_loop_record (loops : Z) (st : scan_state) (sent : nat)
  (line : string) (rest : process) (base step : R) (ms : list string) :
  Py.strip line <> EmptyString ->
  parse_rtl_power (Py.strip line) = Some (base, step, ms) ->
  rtl_power_loop loops st sent (Stdout line :: rest)
  = match rtl_power_bins loops base step 0 ms st sent with
    | Raise e => mk_run (Raise e) sent
    | Return (st1, sent1) => rtl_power_loop loops st1 sent1 rest
    end.
Proof.
  intros Hne Hp; simpl.
  destruct (Py.strip line); [congruence|].
  rewrite Hp; reflexivity.
Qed.

Lemma rtl_power_bins_advance (loops : Z) (base step : R) (idx : nat)
  (power : string) (later : list string) (st : scan_state) (sent : nat) (p : R) :
  max_encountered_frequency st < base + INR idx * step ->
  (loop_cursor st < loops)%Z ->
  Py.float power = Some p ->
  rtl_power_bins loops base step idx (power :: later) st sent
  = rtl_power_bins loops base step (S idx) later
      (mk_state (setdefault_append (base + INR idx * step) p (frequencies st))
                (loop_cursor st) (base + INR idx * step)) sent.
Proof.
  intros Hmax Hcur Hp.
  cbn [rtl_power_bins]. rewrite (detect_advance _ Hmax); cbn [loop_cursor].
  destruct (Z.geb_spec (loop_cursor st) loops); [lia|].
  rewrite Hp; reflexivity.
Qed.

(** When the [for] loop ends without the [break], every reading was a number
    and was recorded at its bin's frequency. *)
Lemma rtl_power_bins_all (loops : Z) (base step : R) (idx : nat)
  (readings : list string) (st st' : scan_state) (sent : nat) :
  rtl_power_bins loops base step idx readings st sent = Return (st', sent) ->
  exists powers,
    Forall2 (fun reading power => Py.float reading = Some power) readings powers /\
    frequencies st' = record_all (bin_samples base step idx powers) (frequencies st).
Proof.
  revert idx st; induction readings as [|r rs IH]; intros idx st H; simpl in H.
  - injection H as <-. exists []; split; [constructor | reflexivity].
  - destruct (_ >=? _)%Z.
    + injection H as _ Hs. exfalso; lia.
    + destruct (Py.float r) as [p|] eqn:Hp; [|discriminate].
      apply IH in H as (powers & Hall & Hfreq).
      exists (p :: powers); split; [constructor; assumption|].
      rewrite Hfreq; simpl; rewrite detect_frequencies; reflexivity.
Qed.

Ltac rtl_power_read :=
  erewrite rtl_power_loop_record;
  [ | cbv; discriminate
    | eapply parse_rtl_power_fields; [ cbv; reflexivity | parse_field | parse_field ] ].

Ltac rtl_power_bin :=
  erewrite rtl_power_bins_advance;
  [ | cbn [max_encountered_frequency INR]; lra | cursor_side | parse_field ];
  decide_reals.

(** The loop over the two readings of the example line runs to its end. *)
Lemma rtl_power_example_bins :
  exists st',
    rtl_power_bins rtl_power_loops 750000000 100000 0 [" -68.3"; " -65.0"]%string
      initial_state 0 = Return (st', 0%nat).
Proof.
  unfold initial_state, rtl_power_loops.
  do 2 rtl_power_bin. eexists; reflexivity.
Qed.

(** The example line of the specification: two readings follow its sixth
    field. *)
Lemma rtl_power_example_run :
  get_antenna_statistics_rtl_power [Stdout rtl_power_example] rtl_power_loops
  = mk_run (Return [(750000000, [-68.3]); (750100000, [-65.0])]) 0.
Proof.
  unfold get_antenna_statistics_rtl_power, initial_state, rtl_power_loops.
  rtl_power_read. do 2 rtl_power_bin.
  cbn [rtl_power_bins rtl_power_loop frequencies].
  repeat f_equal; lra.
Qed.

(** A line with the sample count in its sixth field gives the three samples. *)
Lemma rtl_power_real_line_run :
  get_antenna_statistics_rtl_power [Stdout rtl_power_real_line] rtl_power_loops
  = mk_run (Return [(750000000, [-70.1]); (750100000, [-68.3]); (750200000, [-65.0])]) 0.
Proof.
  unfold get_antenna_statistics_rtl_power, initial_state, rtl_power_loops.
  rtl_power_read. do 3 rtl_power_bin.
  cbn [rtl_power_bins rtl_power_loop frequencies].
  repeat f_equal; lra.
Qed.

(** ** The Format B decoder *)

(** C5 as stated fails on its own example: the line has eight fields, the
    readings start at the seventh, and the map returned is not the one with
    three samples. *)
Lemma rtl_power_example_has_not_three_samples :
  outcome (get_antenna_statistics_rtl_power [Stdout rtl_power_example] rtl_power_loops)
  <> Return [(750000000, [-70.1]); (750100000, [-68.3]); (750200000, [-65.0])].
Proof.
  rewrite rtl_power_example_run; simpl; discriminate.
Qed.

(** C5, amended.  Of a comma-separated record the third field is the base
    frequency, the fifth the step, and the fields from the seventh onward
    the readings.  When the loop over the readings ends without completing
    the scan, every reading was recorded, reading number [i] under the
    frequency [base + i * step].  The line
    "2015-08-17, 20:32:17, 750000000, 950000000, 100000, -70.1, -68.3, -65.0"
    yields two samples, -68.3 at 750000000 and -65.0 at 750100000: its sixth
    field, -70.1, is not a reading.  With a sample count as sixth field the
    three readings yield the three samples at 750000000, 750100000 and
    750200000. *)
Theorem rtl_power_decoder :
  (forall line f1 f2 f3 f4 f5 f6 readings base step,
     Py.split "," line = f1 :: f2 :: f3 :: f4 :: f5 :: f6 :: readings ->
     Py.float f3 = Some base -> Py.float f5 = Some step ->
     parse_rtl_power line = Some (base, step, readings)) /\
  (forall loops base step readings st st' sent,
     rtl_power_bins loops base step 0 readings st sent = Return (st', sent) ->
     exists powers,
       Forall2 (fun reading power => Py.float reading = Some power) readings powers /\
       frequencies st' = record_all (bin_samples base step 0 powers) (frequencies st)) /\
  get_antenna_statistics_rtl_power [Stdout rtl_power_example] rtl_power_loops
  = mk_run (Return [(750000000, [-68.3]); (750100000, [-65.0])]) 0 /\
  get_antenna_statistics_rtl_power [Stdout rtl_power_real_line] rtl_power_loops
  = mk_run (Return [(750000000, [-70.1]); (750100000, [-68.3]); (750200000, [-65.0])]) 0.
Proof.
  split; [exact parse_rtl_power_fields|].
  split; [intros loops base step readings st st' sent; apply rtl_power_bins_all|].
  split; [exact rtl_power_example_run | exact rtl_power_real_line_run].
Qed.

(** C5 on the example line: its fields, and the two readings recorded. *)
Lemma rtl_power_decoder_witness :
  parse_rtl_power (Py.strip rtl_power_example)
  = Some (750000000, 100000, [" -68.3"; " -65.0"]%string) /\
  exists st' powers,
    rtl_power_bins rtl_power_loops 750000000 100000 0 [" -68.3"; " -65.0"]%string
      initial_state 0 = Return (st', 0%nat) /\
    Forall2 (fun reading power => Py.float reading = Some power)
      [" -68.3"; " -65.0"]%string powers /\
    frequencies st'
    = record_all (bin_samples 750000000 100000 0 powers) (frequencies initial_state).
Proof.
  destruct rtl_power_decoder as (Hfields & Hbins & _).
  split.
  - apply (Hfields (Py.strip rtl_power_example)
             "2015-08-17" " 20:32:17" " 750000000" " 950000000" " 100000" " -70.1")%string.
    + reflexivity.
    + apply float_int; reflexivity.
    + apply float_int; reflexivity.
  - destruct rtl_power_example_bins as [st' Hrun].
    exists st'.
    destruct (Hbins _ _ _ _ _ _ _ Hrun) as (powers & Hparsed & Hfreq).
    exists powers; repeat split; assumption.
Defined.

(** ** The rtl_power scan cancelled between [setdefault] and [append] *)

Lemma append_after_setdefault (k v : R) (d : FrequencyPowerMap) :
  append_reading k v (setdefault_empty k d) = setdefault_append k v d.
Proof.
  induction d as [|[k' readings] d IH]; simpl.
  - destruct (Req_dec_T k k); [reflexivity | congruence].
  - destruct (Req_dec_T k' k) as [Heq|Hne]; simpl.
    + destruct (Req_dec_T k' k); [reflexivity | contradiction].
    + destruct (Req_dec_T k' k); [contradiction | now rewrite IH].
Qed.

(** Without an interrupt the two calls are the one step [record] of the
    loop above. *)
Lemma rtl_power_bins_cancel_never (loops : Z) (base step : R) (idx : nat)
  (ms : list string) (st : scan_state) (sent : nat) :
  rtl_power_bins_cancel loops base step idx ms st sent None
  = match rtl_power_bins loops base step idx ms st sent with
    | Return (st1, sent1) => Finished st1 sent1 None
    | Raise e => Failed e
    end.
Proof.
  revert idx st; induction ms as [|power later IH]; intros idx st; simpl.
  - reflexivity.
  - destruct (loop_cursor (detect (base + INR idx * step) st) >=? loops)%Z;
      [reflexivity|].
    destruct (Py.float power) as [p|]; [|reflexivity].
    rewrite append_after_setdefault; apply IH.
Qed.

Lemma rtl_power_loop_cancel_never (loops : Z) (st : scan_state) (sent : nat)
  (proc : process) :
  rtl_power_loop_cancel loops st sent None proc = rtl_power_loop loops st sent proc.
Proof.
  revert st sent; induction proc as [|[line|] proc IH]; intros st sent; simpl;
    try reflexivity.
  destruct (Py.strip line); [reflexivity|].
  destruct (parse_rtl_power _) as [[[base step] ms]|]; [|apply IH].
  rewrite rtl_power_bins_cancel_never.
  destruct (rtl_power_bins loops base step 0 ms st sent) as [[st1 sent1]|e];
    [apply IH | reflexivity].
Qed.

(** C10, where the code departs from it.  The rtl_power scan can return a
    key that has no reading.  On one record of rtl_power, with the default
    threshold, a cancellation that arrives when [setdefault] has created the
    key of the first reading and [append] has not run reaches the handler,
    which signals the child and returns the map: 750 MHz with the empty
    list.  The map breaks the invariant, and on it the mean of the deriver
    divides by zero. *)
Theorem rtl_power_cancelled_before_append :
  rtl_power_loop_cancel rtl_power_loops initial_state 0 (Some 0%nat)
    [Stdout rtl_power_real_line]
  = mk_run (Return [(750000000, [])]) 1 /\
  ~ observed [(750000000, [])] /\
  get_frequency_swr_pairs_text [("750000000.0"%string, [-70])] [(750000000, [])]
  = Raise ZeroDivisionError.
Proof.
  split; [|split].
  - assert (Hrecord : parse_rtl_power (Py.strip rtl_power_real_line)
                      = Some (750000000, 100000, [" -70.1"; " -68.3"; " -65.0"]%string)).
    { eapply parse_rtl_power_fields; [cbv; reflexivity | parse_field | parse_field]. }
    cbn [rtl_power_loop_cancel].
    destruct (Py.strip rtl_power_real_line) eqn:Hstrip; [discriminate Hstrip|].
    rewrite Hrecord.
    cbn [rtl_power_bins_cancel].
    rewrite detect_advance by (cbn [max_encountered_frequency initial_state INR]; lra).
    unfold rtl_power_loops, initial_state;
      cbn [loop_cursor frequencies setdefault_empty INR].
    destruct (Z.geb_spec 0 1); [lia|].
    cbn [frequencies]; repeat f_equal; lra.
  - intros Hobs; apply (Hobs 750000000 []); [left|]; reflexivity.
  - unfold get_frequency_swr_pairs_text.
    change (sorted_text (json_keys [("750000000.0"%string, [-70])]))
      with ["750000000.0"%string].
    cbn [swr_loop_text]; unfold swr_pair_text.
    change (json_get "750000000.0" [("750000000.0"%string, [-70])])
      with (Some [-70]).
    replace (Py.float "750000000.0") with (Some 750000000).
    2:{ symmetry; replace 750000000 with (7500000000 / 10) by lra. parse_field. }
    cbn [dict_get].
    destruct (Req_dec_T 750000000 750000000); [|exfalso; lra].
    rewrite (@mean_nonempty [-70]) by discriminate.
    rewrite mean_empty; reflexivity.
Qed.

(* ================================================================== *)
(** * Further properties of the code *)

(** ** read_data_pairs_from_file *)

Section ReaderProperties.

Variable F : Type.
Variable is_space : N -> bool.
Variable float : Text.text -> option F.

Lemma read_data_pair_cases (line : Text.text) :
  (blank is_space line = true /\ read_data_pair is_space float line = Return None) \/
  (blank is_space line = false /\
   ((exists found, data_line is_space float line found /\
                   read_data_pair is_space float line = Return (Some found)) \/
    ((forall found, ~ data_line is_space float line found) /\
     read_data_pair is_space float line = Raise ValueError))).
Proof.
  unfold blank, read_data_pair, data_line.
  destruct (Text.strip is_space line) as [|c s] eqn:Hs; [left; split; reflexivity|].
  right; split; [reflexivity|].
  destruct (Text.split Text.comma (c :: s)) as [|fs [|ss [|x xs]]] eqn:Hf;
    try (right; split; [intros found (a & b & [=] & _) | reflexivity]).
  destruct (float fs) as [f|] eqn:Hfloat.
  - destruct (float ss) as [s'|] eqn:Hswr.
    + left; exists (f, s'); split; [|reflexivity].
      exists fs, ss; auto.
    + right; split; [|reflexivity].
      intros found (a & b & [= <- <-] & _ & Hb). congruence.
  - right; split; [|reflexivity].
    intros found (a & b & [= <- <-] & Ha & _). congruence.
Qed.

Lemma data_line_functional (line : Text.text) (p q : F * F) :
  data_line is_space float line p -> data_line is_space float line q -> p = q.
Proof.
  intros (a & b & Hs & Ha & Hb) (a' & b' & Hs' & Ha' & Hb').
  rewrite Hs in Hs'; injection Hs' as <- <-.
  destruct p, q; simpl in *; congruence.
Qed.

Lemma read_loop_Return (lines : list Text.text) (pairs out : list (F * F)) :
  read_loop is_space float lines pairs = Return out <->
  exists new,
    out = pairs ++ new /\
    Forall2 (data_line is_space float)
      (filter (fun line => negb (blank is_space line)) lines) new.
Proof.
  revert pairs; induction lines as [|line lines IH]; intros pairs; simpl.
  - split.
    + intros [= <-]; exists []; rewrite app_nil_r; split; [reflexivity | constructor].
    + intros (new & -> & Hall); inversion Hall; now rewrite app_nil_r.
  - destruct (read_data_pair_cases line)
      as [[Hb ->]|[Hb [(found & Hd & ->)|(Hnone & ->)]]]; rewrite Hb; simpl.
    + apply IH.
    + rewrite IH; split.
      * intros (new & -> & Hall); exists (found :: new).
        rewrite <- app_assoc; split; [reflexivity | constructor; assumption].
      * intros (new & -> & Hall).
        inversion Hall as [|? p ? new' Hp Hrest]; subst.
        rewrite (data_line_functional Hp Hd).
        exists new'; rewrite <- app_assoc; split; [reflexivity | assumption].
    + split; [discriminate|].
      intros (new & _ & Hall); inversion Hall as [|? p ? ? Hp]; subst.
      exfalso; exact (Hnone p Hp).
Qed.

(** X1.  Whatever white space [strip] removes and whatever texts [float]
    accepts, [read_data_pairs_from_file] returns exactly when every line
    that [strip] does not empty splits at its commas into two texts that
    [float] accepts, and what it returns are the pairs of those lines, in
    the order of the file. *)
Theorem read_data_pairs_from_file_spec (lines : list Text.text) (pairs : list (F * F)) :
  read_data_pairs_from_file is_space float lines = Return pairs <->
  Forall2 (data_line is_space float)
    (filter (fun line => negb (blank is_space line)) lines) pairs.
Proof.
  unfold read_data_pairs_from_file.
  rewrite read_loop_Return; simpl; split.
  - intros (new & -> & H); exact H.
  - intros H; exists pairs; auto.
Qed.

Lemma read_loop_accumulates (lines : list Text.text) (pairs : list (F * F)) :
  read_loop is_space float lines pairs
  = (new <- read_loop is_space float lines [] ;; Return (pairs ++ new)).
Proof.
  revert pairs; induction lines as [|line lines IH]; intros pairs; simpl.
  - now rewrite app_nil_r.
  - destruct (read_data_pair is_space float line) as [[found|]|e]; simpl;
      [|apply IH | reflexivity].
    rewrite (IH (pairs ++ [found])), (IH [found]).
    destruct (read_loop is_space float lines []); simpl; [|reflexivity].
    now rewrite <- app_assoc.
Qed.

Lemma read_loop_app (l1 l2 : list Text.text) (pairs : list (F * F)) :
  read_loop is_space float (l1 ++ l2) pairs
  = (mid <- read_loop is_space float l1 pairs ;; read_loop is_space float l2 mid).
Proof.
  revert pairs; induction l1 as [|line l1 IH]; intros pairs; simpl; [reflexivity|].
  destruct (read_data_pair is_space float line) as [item|e]; simpl;
    [apply IH | reflexivity].
Qed.

(** X2.  Reading two files one after the other is reading their
    concatenation: the pairs of the first followed by the pairs of the
    second, and the first error met is the error of the whole. *)
Theorem read_data_pairs_from_file_app (l1 l2 : list Text.text) :
  read_data_pairs_from_file is_space float (l1 ++ l2)
  = (p1 <- read_data_pairs_from_file is_space float l1 ;;
     p2 <- read_data_pairs_from_file is_space float l2 ;;
     Return (p1 ++ p2)).
Proof.
  unfold read_data_pairs_from_file.
  rewrite read_loop_app.
  destruct (read_loop is_space float l1 []) as [p1|e]; simpl; [|reflexivity].
  apply read_loop_accumulates.
Qed.

End ReaderProperties.

(** X1 on a file of two pairs with a blank line between them, read with the
    white space and the numbers of ASCII. *)
Lemma read_data_pairs_from_file_spec_witness :
  read_data_pairs_from_file ascii_space ascii_float
    (map Text.of_string
       ["1000.0,2" ++ newline; newline; " 2000.0 , 17372" ++ newline]%string)
  = Return [(10000 / 10, 2); (20000 / 10, 17372)].
Proof.
  apply read_data_pairs_from_file_spec.
  change (filter _ _)
    with (map Text.of_string
            ["1000.0,2" ++ newline; " 2000.0 , 17372" ++ newline]%string).
  repeat constructor.
  - exists (Text.of_string "1000.0"), (Text.of_string "2").
    split; [reflexivity|].
    split; [apply float_tenths | apply float_int]; reflexivity.
  - exists (Text.of_string "2000.0 "), (Text.of_string " 17372").
    split; [reflexivity|].
    split; [apply float_tenths | apply float_int]; reflexivity.
Defined.

(** ** get_frequency_swr_pairs: what the result depends on *)

Lemma ascending_perm_eq (xs ys : list R) :
  Sorted Rle xs -> Sorted Rle ys -> Permutation xs ys -> xs = ys.
Proof.
  intros Hx Hy.
  apply Sorted_StronglySorted in Hx; [|intros a b c; apply Rle_trans].
  apply Sorted_StronglySorted in Hy; [|intros a b c; apply Rle_trans].
  revert ys Hy; induction Hx as [|x xs Hxs IH Hall]; intros ys Hy Hp.
  - apply Permutation_nil in Hp; now subst.
  - destruct Hy as [|y ys Hys Hall'].
    + apply Permutation_sym, Permutation_nil in Hp; discriminate.
    + rewrite Forall_forall in Hall, Hall'.
      assert (x <= y).
      { destruct (Permutation_in y (Permutation_sym Hp) (or_introl eq_refl)) as [->|Hin];
          [lra | auto]. }
      assert (y <= x).
      { destruct (Permutation_in x Hp (or_introl eq_refl)) as [->|Hin]; [lra | auto]. }
      assert (x = y) by lra; subst y.
      f_equal; apply IH; [assumption|].
      now apply Permutation_cons_inv in Hp.
Qed.

Lemma sorted_of_permutation (xs ys : list R) :
  Permutation xs ys -> sorted xs = sorted ys.
Proof.
  intros Hp; apply ascending_perm_eq; try apply sorted_ascending.
  rewrite (sorted_perm xs), (sorted_perm ys); exact Hp.
Qed.

Lemma dict_get_of_In (k : R) (readings : list R) (d : FrequencyPowerMap) :
  dict_wf d -> In (k, readings) d -> dict_get k d = Some readings.
Proof.
  unfold dict_wf; induction d as [|[k' r'] d IH]; simpl; intros Hwf Hin; [contradiction|].
  inversion Hwf as [|? ? Hout Hwf']; subst.
  destruct (Req_dec_T k' k) as [->|Hne].
  - destruct Hin as [[= ->]|Hin]; [reflexivity|].
    exfalso; apply Hout. apply (in_map fst) in Hin; exact Hin.
  - destruct Hin as [[= -> _]|Hin]; [contradiction | auto].
Qed.

Lemma dict_get_of_permutation (k : R) (d d' : FrequencyPowerMap) :
  dict_wf d -> Permutation d d' -> dict_get k d = dict_get k d'.
Proof.
  intros Hwf Hp.
  assert (Hwf' : dict_wf d').
  { unfold dict_wf, keys. apply (Permutation_NoDup (Permutation_map fst Hp)), Hwf. }
  destruct (dict_get k d) as [r|] eqn:E.
  - symmetry; apply dict_get_of_In; [assumption|].
    apply (Permutation_in _ Hp), dict_get_In, E.
  - destruct (dict_get k d') as [r'|] eqn:E'; [|reflexivity].
    apply dict_get_In, (Permutation_in _ (Permutation_sym Hp)) in E'.
    rewrite (@dict_get_of_In _ _ _ Hwf E') in E; discriminate.
Qed.

Lemma swr_pair_ext (b b' m m' : FrequencyPowerMap) (k : R) :
  dict_get k b = dict_get k b' -> dict_get k m = dict_get k m' ->
  swr_pair b m k = swr_pair b' m' k.
Proof. intros Hb Hm; unfold swr_pair; now rewrite Hb, Hm. Qed.

Lemma swr_loop_ext (b b' m m' : FrequencyPowerMap) (todo : list R)
  (data_pairs : list (R * R)) :
  (forall k, In k todo -> swr_pair b m k = swr_pair b' m' k) ->
  swr_loop b m todo data_pairs = swr_loop b' m' todo data_pairs.
Proof.
  revert data_pairs; induction todo as [|k todo IH]; intros acc H; simpl; [reflexivity|].
  rewrite (H k (or_introl eq_refl)).
  destruct (swr_pair b' m' k); simpl; [|reflexivity].
  apply IH; intros k0 Hk0; apply H; right; exact Hk0.
Qed.

(** X3.  The result does not depend on the order in which the two dicts
    hold their entries: the pairs come out by ascending frequency whatever
    the order of insertion. *)
Theorem get_frequency_swr_pairs_any_order (b b' m m' : FrequencyPowerMap) :
  dict_wf b -> dict_wf m -> Permutation b b' -> Permutation m m' ->
  get_frequency_swr_pairs b m = get_frequency_swr_pairs b' m'.
Proof.
  intros Hb Hm Hpb Hpm; unfold get_frequency_swr_pairs, keys.
  rewrite (sorted_of_permutation (Permutation_map fst Hpb)).
  apply swr_loop_ext; intros k _.
  apply swr_pair_ext; now apply dict_get_of_permutation.
Qed.

Lemma get_frequency_swr_pairs_any_order_witness :
  get_frequency_swr_pairs [(1000, [-70]); (2000, [-71])] [(1000, [-80]); (2000, [-75])]
  = get_frequency_swr_pairs [(2000, [-71]); (1000, [-70])] [(2000, [-75]); (1000, [-80])].
Proof.
  apply get_frequency_swr_pairs_any_order.
  - constructor; [simpl; intros [H|[]]; lra|].
    constructor; [simpl; tauto | constructor].
  - constructor; [simpl; intros [H|[]]; lra|].
    constructor; [simpl; tauto | constructor].
  - apply perm_swap.
  - apply perm_swap.
Defined.

(** X4.  Only the measurements at baseline frequencies count: two
    measurement maps that agree on every key of the baseline give the same
    result, so entries at other frequencies are ignored. *)
Theorem get_frequency_swr_pairs_ignores_other_keys (b m m' : FrequencyPowerMap) :
  (forall k, In k (keys b) -> dict_get k m = dict_get k m') ->
  get_frequency_swr_pairs b m = get_frequency_swr_pairs b m'.
Proof.
  intros H; unfold get_frequency_swr_pairs.
  apply swr_loop_ext; intros k Hk.
  apply swr_pair_ext; [reflexivity|].
  apply H, (Permutation_in _ (sorted_perm _)), Hk.
Qed.

Lemma get_frequency_swr_pairs_ignores_other_keys_witness :
  get_frequency_swr_pairs [(1000, [-70])] [(1000, [-80])]
  = get_frequency_swr_pairs [(1000, [-70])] [(1000, [-80]); (3000, [-60])].
Proof.
  apply get_frequency_swr_pairs_ignores_other_keys.
  intros k [<-|[]]; simpl.
  destruct (Req_dec_T 1000 1000); [reflexivity | contradiction].
Defined.

(** ** get_frequency_swr_pairs: the floor of the loss *)






(** ** The rtl_power scan: where it stops reading and what it keeps *)

(** X11.  For the rtl_power scan a blank line is the end of the stream:
    nothing that follows it is read, and the result is that of the output
    before it. *)
Theorem rtl_power_blank_line_is_end_of_stream (loops : Z) (st : scan_state)
  (sent : nat) (pre : process) (line : string) (rest : process) :
  Py.strip line = EmptyString ->
  rtl_power_loop loops st sent (pre ++ Stdout line :: rest)
  = rtl_power_loop loops st sent pre.
Proof.
  intros Hblank; revert st sent.
  induction pre as [|[l|] pre IH]; intros st sent; simpl.
  - rewrite Hblank; reflexivity.
  - destruct (Py.strip l); [reflexivity|].
    destruct (parse_rtl_power _) as [[[base step] ms]|]; [|apply IH].
    destruct (rtl_power_bins loops base step 0 ms st sent) as [[st1 sent1]|e];
      [apply IH | reflexivity].
  - reflexivity.
Qed.

Lemma rtl_power_blank_line_is_end_of_stream_witness :
  rtl_power_loop rtl_power_loops initial_state 0
    ([Stdout rtl_power_example] ++ Stdout newline :: [Stdout rtl_power_real_line])
  = rtl_power_loop rtl_power_loops initial_state 0 [Stdout rtl_power_example].
Proof.
  apply rtl_power_blank_line_is_end_of_stream.
  reflexivity.
Defined.

Lemma rtl_power_bins_frozen (loops : Z) (base step : R) (idx : nat)
  (readings : list string) (st : scan_state) (sent : nat) :
  (loops <= loop_cursor st)%Z ->
  exists st' sent',
    rtl_power_bins loops base step idx readings st sent = Return (st', sent') /\
    frequencies st' = frequencies st /\
    (loops <= loop_cursor st')%Z /\ (sent <= sent')%nat.
Proof.
  intros Hdone; destruct readings as [|r rs]; simpl.
  - exists st, sent; auto.
  - pose proof (detect_cursor (base + INR idx * step) st) as Hc.
    destruct (Z.geb_spec (loop_cursor (detect (base + INR idx * step) st)) loops); [|lia].
    exists (detect (base + INR idx * step) st), (S sent).
    rewrite detect_frequencies; repeat split; auto; lia.
Qed.

Lemma rtl_power_map_is_final_after_completion_aux (loops : Z) (st : scan_state)
  (sent : nat) (proc : process) :
  (loops <= loop_cursor st)%Z ->
  outcome (rtl_power_loop loops st sent proc) = Return (frequencies st).
Proof.
  revert st sent; induction proc as [|[l|] proc IH]; intros st sent Hdone; simpl.
  - reflexivity.
  - destruct (Py.strip l); [reflexivity|].
    destruct (parse_rtl_power _) as [[[base step] ms]|]; [|apply IH; assumption].
    destruct (rtl_power_bins_frozen base step 0 ms st sent Hdone)
      as (st' & sent' & -> & Hf & Hc & _).
    rewrite (IH st' sent' Hc), Hf; reflexivity.
  - reflexivity.
Qed.

Lemma rtl_power_bins_after_completion (loops : Z) (base step : R) (idx : nat)
  (readings : list string) (st : scan_state) (sent : nat) :
  (loops <= loop_cursor st)%Z ->
  exists st',
    rtl_power_bins loops base step idx readings st sent
    = Return (st', match readings with [] => sent | _ :: _ => S sent end) /\
    frequencies st' = frequencies st /\
    (loops <= loop_cursor st')%Z.
Proof.
  intros Hdone; destruct readings as [|r rs]; simpl.
  - exists st; auto.
  - pose proof (detect_cursor (base + INR idx * step) st) as Hc.
    destruct (Z.geb_spec (loop_cursor (detect (base + INR idx * step) st)) loops); [|lia].
    exists (detect (base + INR idx * step) st).
    rewrite detect_frequencies; repeat split; auto; lia.
Qed.

(** X12.  Once the loop counter has reached the threshold the rtl_power scan
    records nothing more, but it does not stop: it reads on until a blank
    line, the end of the stream or a cancellation, and it signals the child
    again at every record that has a reading.  It returns the map as it was
    when the threshold was reached, and the count of signals is the count
    before plus one for each such record and one for a cancellation. *)
Theorem rtl_power_map_is_final_after_completion (loops : Z) (st : scan_state)
  (sent : nat) (proc : process) :
  (loops <= loop_cursor st)%Z ->
  rtl_power_loop loops st sent proc
  = mk_run (Return (frequencies st)) (sent + signals_after_completion proc).
Proof.
  revert st sent; induction proc as [|[l|] proc IH]; intros st sent Hdone; simpl.
  - now rewrite Nat.add_0_r.
  - destruct (Py.strip l); [now rewrite Nat.add_0_r|].
    destruct (parse_rtl_power _) as [[[base step] ms]|]; [|apply IH; assumption].
    destruct (rtl_power_bins_after_completion base step 0 ms st sent Hdone)
      as (st' & -> & Hf & Hc).
    rewrite (IH st' _ Hc), Hf.
    destruct ms; [reflexivity | now rewrite Nat.add_succ_r].
  - now rewrite Nat.add_1_r.
Qed.

(** X12 after one full sweep: two more records and a cancellation make three
    more signals, four in all, and the map is the one of the sweep. *)
Lemma rtl_power_map_is_final_after_completion_witness :
  rtl_power_loop 1 (mk_state [(10, [-70])] 1 10) 1
    [Stdout rtl_power_real_line; Stdout rtl_power_example; Interrupt]
  = mk_run (Return [(10, [-70])]) 4.
Proof.
  rewrite (@rtl_power_map_is_final_after_completion 1 (mk_state [(10, [-70])] 1 10) 1
             [Stdout rtl_power_real_line; Stdout rtl_power_example; Interrupt]);
    [|simpl; lia].
  assert (Hreal : parse_rtl_power (Py.strip rtl_power_real_line)
                  = Some (750000000, 100000, [" -70.1"; " -68.3"; " -65.0"]%string)).
  { eapply parse_rtl_power_fields; [cbv; reflexivity | parse_field | parse_field]. }
  assert (Hexample : parse_rtl_power (Py.strip rtl_power_example)
                     = Some (750000000, 100000, [" -68.3"; " -65.0"]%string)).
  { eapply parse_rtl_power_fields; [cbv; reflexivity | parse_field | parse_field]. }
  cbn [signals_after_completion frequencies].
  destruct (Py.strip rtl_power_real_line) eqn:Hs1; [discriminate Hs1|].
  rewrite Hreal.
  destruct (Py.strip rtl_power_example) eqn:Hs2; [discriminate Hs2|].
  rewrite Hexample.
  reflexivity.
Defined.

Lemma osmocom_loop_frozen (fuel : nat) (loops : Z) (st : scan_state) (proc : process)
  (d : FrequencyPowerMap) (n : nat) :
  (loops <= loop_cursor st)%Z ->
  osmocom_loop fuel loops st proc = Some (mk_run (Return d) n) ->
  d = frequencies st.
Proof.
  intros Hdone; revert st proc Hdone.
  induction fuel as [|fuel IH]; intros st proc Hdone H; [discriminate|].
  simpl in H. destruct (readline proc) as [line rest|]; [|discriminate].
  destruct (unpack_osmocom _) as [[[cs fs] ps]|]; [|eauto].
  destruct (Py.float fs) as [f|]; [|discriminate].
  pose proof (detect_cursor f st) as Hc.
  destruct (Z.geb_spec (loop_cursor (detect f st)) loops); [|lia].
  injection H as <- _. apply detect_frequencies.
Qed.

(** X13.  With a threshold that is not positive neither scan records
    anything: the rtl_power scan returns the empty map on every output, and
    a map the osmocom scan returns is empty. *)
Theorem nonpositive_threshold_records_nothing (loops : Z) (proc : process) :
  (loops <= 0)%Z ->
  outcome (get_antenna_statistics_rtl_power proc loops) = Return [] /\
  forall fuel d n,
    get_antenna_statistics_osmocom fuel proc loops = Some (mk_run (Return d) n) ->
    d = [].
Proof.
  intros Hl; split.
  - apply (@rtl_power_map_is_final_after_completion_aux loops initial_state 0%nat proc Hl).
  - intros fuel d n H.
    apply (@osmocom_loop_frozen fuel loops initial_state proc d n Hl H).
Qed.

Lemma nonpositive_threshold_records_nothing_witness :
  outcome (get_antenna_statistics_rtl_power [Stdout rtl_power_real_line] 0) = Return [] /\
  forall fuel d n,
    get_antenna_statistics_osmocom fuel sweep_example 0 = Some (mk_run (Return d) n) ->
    d = [].
Proof.
  split.
  - apply (@nonpositive_threshold_records_nothing 0 [Stdout rtl_power_real_line]); lia.
  - apply (@nonpositive_threshold_records_nothing 0 sweep_example); lia.
Defined.

(** ** The osmocom scan: signals and the part of the output it reads *)

(** X15.  What the osmocom scan returns depends only on the output up to
    the line that ends it: a run that has ended gives the same result
    whatever the child prints afterwards. *)
Theorem osmocom_result_ignores_later_output (fuel : nat) (loops : Z)
  (st : scan_state) (pre rest : process) (r : run) :
  osmocom_loop fuel loops st pre = Some r ->
  osmocom_loop fuel loops st (pre ++ rest) = Some r.
Proof.
  revert st pre; induction fuel as [|fuel IH]; intros st pre H; [discriminate|].
  destruct pre as [|[line|] pre].
  - rewrite osmocom_loop_eof in H; discriminate.
  - simpl in *.
    destruct (unpack_osmocom _) as [[[cs fs] ps]|]; [|auto].
    destruct (Py.float fs) as [f|]; [|assumption].
    destruct (_ >=? _)%Z; [assumption|].
    destruct (Py.float cs) as [c|]; [|assumption].
    destruct (Py.float ps) as [p|]; [|assumption].
    auto.
  - exact H.
Qed.

Lemma osmocom_result_ignores_later_output_witness :
  osmocom_loop 4 1 initial_state (sweep_example ++ [Interrupt])
  = Some (mk_run (Return [(10, [-70]); (20, [-70]); (30, [-70])]) 1).
Proof.
  apply osmocom_result_ignores_later_output.
  exact (proj2 (sweep_example_run 0)).
Defined.

(** ** The rtl_power scan: how it fails *)

Lemma rtl_power_bins_outcome (loops : Z) (base step : R) (idx : nat)
  (readings : list string) (st : scan_state) (sent : nat) :
  match rtl_power_bins loops base step idx readings st sent with
  | Return (st', sent') =>
      (sent' = sent \/ (sent' = S sent /\ (loops <= loop_cursor st')%Z)) /\
      ((loops <= loop_cursor st)%Z -> (loops <= loop_cursor st')%Z)
  | Raise e => e = ValueError /\ (loop_cursor st < loops)%Z
  end.
Proof.
  revert idx st; induction readings as [|r rs IH]; intros idx st; simpl.
  - auto.
  - pose proof (detect_cursor (base + INR idx * step) st) as Hc.
    destruct (Z.geb_spec (loop_cursor (detect (base + INR idx * step) st)) loops).
    + split; [right; split; [reflexivity | assumption] | intros _; assumption].
    + destruct (Py.float r) as [p|]; [|split; [reflexivity | lia]].
      specialize (IH (S idx) (record (base + INR idx * step) p
                                     (detect (base + INR idx * step) st))).
      destruct (rtl_power_bins loops base step (S idx) rs _ sent) as [[st' sent']|e];
        simpl in IH.
      * destruct IH as [Hs Hm]; split; [assumption | intros; lia].
      * destruct IH as [-> Hlt]; split; [reflexivity | lia].
Qed.

Lemma rtl_power_loop_failure (loops : Z) (st : scan_state) (sent : nat)
  (proc : process) (e : exn) :
  sent = 0%nat \/ (loops <= loop_cursor st)%Z ->
  outcome (rtl_power_loop loops st sent proc) = Raise e ->
  e = ValueError /\ sigints (rtl_power_loop loops st sent proc) = 0%nat.
Proof.
  revert st sent; induction proc as [|[l|] proc IH]; intros st sent Hinv; simpl;
    try discriminate.
  destruct (Py.strip l); [discriminate|].
  destruct (parse_rtl_power _) as [[[base step] ms]|]; [|apply IH; assumption].
  pose proof (rtl_power_bins_outcome loops base step 0 ms st sent) as Hb.
  destruct (rtl_power_bins loops base step 0 ms st sent) as [[st1 sent1]|e1].
  - apply IH. destruct Hb as [[->|[-> Hc]] Hm]; [|right; assumption].
    destruct Hinv as [->|Hd]; [left; reflexivity | right; auto].
  - destruct Hb as [-> Hlt]; simpl. intros [= <-].
    split; [reflexivity|]. destruct Hinv as [->|Hd]; [reflexivity | lia].
Qed.

(** X16.  The rtl_power scan raises nothing but [ValueError], and when it
    does it has sent no signal to the child: a reading that is not a number
    can only be met before the threshold is reached, and the child is left
    running. *)
Theorem rtl_power_fails_without_signalling (proc : process) (loops : Z) (e : exn) :
  outcome (get_antenna_statistics_rtl_power proc loops) = Raise e ->
  e = ValueError /\ sigints (get_antenna_statistics_rtl_power proc loops) = 0%nat.
Proof.
  apply rtl_power_loop_failure; left; reflexivity.
Qed.

Lemma rtl_power_bins_bad_reading (loops : Z) (base step : R) (idx : nat)
  (power : string) (later : list string) (st : scan_state) (sent : nat) :
  max_encountered_frequency st < base + INR idx * step ->
  (loop_cursor st < loops)%Z ->
  Py.float power = None ->
  rtl_power_bins loops base step idx (power :: later) st sent = Raise ValueError.
Proof.
  intros Hmax Hcur Hp.
  cbn [rtl_power_bins]. rewrite (detect_advance _ Hmax); cbn [loop_cursor].
  destruct (Z.geb_spec (loop_cursor st) loops); [lia|].
  rewrite Hp; reflexivity.
Qed.

(** A record whose second reading is "n/a": the scan ends in [ValueError]. *)
Lemma rtl_power_bad_line_run :
  get_antenna_statistics_rtl_power [Stdout rtl_power_bad_line] rtl_power_loops
  = mk_run (Raise ValueError) 0.
Proof.
  unfold get_antenna_statistics_rtl_power, initial_state, rtl_power_loops.
  rtl_power_read. rtl_power_bin.
  rewrite rtl_power_bins_bad_reading;
    [reflexivity | cbn [max_encountered_frequency INR]; lra | cursor_side | reflexivity].
Qed.

Lemma rtl_power_fails_without_signalling_witness :
  ValueError = ValueError /\
  sigints (get_antenna_statistics_rtl_power [Stdout rtl_power_bad_line] rtl_power_loops)
  = 0%nat.
Proof.
  apply (@rtl_power_fails_without_signalling [Stdout rtl_power_bad_line] rtl_power_loops).
  rewrite rtl_power_bad_line_run; reflexivity.
Defined.

